(** * ec2-manager: the inventory client and the dashboard of [main.go]

    A shallow embedding of [main.go].  Go strings are [string], slices are
    lists, [*string] fields of the SDK are [option string] and dereferencing
    a nil one is a run-time panic, which the embedding keeps as an outcome of
    its own.  The cloud provider and the widget library are not part of the
    repository: the provider is a transition system given as section
    variables, the widgets are modelled by the few operations [main.go]
    calls on them. *)

From Stdlib Require Import List String Ascii Bool Arith NArith Lia.
Import ListNotations.
Local Open Scope string_scope.

(** ** Errors, panics and the outcome monad *)

(** A Go [error], identified with the text its [Error()] method returns. *)
Definition error := string.

(** What a Go function returning [(A, error)] can do: return a value,
    return an error, or panic (nil pointer dereference). *)
Inductive outcome (A : Type) : Type :=
| Ok (a : A)
| Err (e : error)
| Panic.
Arguments Ok {A} a.
Arguments Err {A} e.
Arguments Panic {A}.

Definition bind {A B : Type} (c : outcome A) (k : A -> outcome B) : outcome B :=
  match c with
  | Ok a => k a
  | Err e => Err e
  | Panic => Panic
  end.

Notation "x <- c ;; k" := (bind c (fun x => k))
  (at level 61, c at next level, right associativity).

(** [*p] for a pointer field [p]. *)
Definition deref {A : Type} (p : option A) : outcome A :=
  match p with
  | Some a => Ok a
  | None => Panic
  end.

Definition isOk {A : Type} (c : outcome A) : bool :=
  match c with
  | Ok _ => true
  | _ => false
  end.

(** ** The provider's record shapes (aws-sdk-go-v2, [service/ec2/types]) *)

Module types.

Record Tag : Type := {
  Key : option string;
  Value : option string
}.

Record GroupIdentifier : Type := {
  GroupId : option string
}.

Record InstanceNetworkInterface : Type := {
  PrivateIpAddress : option string
}.

Record InstanceState : Type := {
  Name : string
}.

(** The fields [getInstances] reads.  [Platform] is a string-valued
    enumeration, [State] is declared [*InstanceState] by the SDK. *)
Record Instance : Type := {
  Tags : list Tag;
  Platform : string;
  PublicIpAddress : option string;
  NetworkInterfaces : list InstanceNetworkInterface;
  SecurityGroups : list GroupIdentifier;
  InstanceId : option string;
  State : option InstanceState
}.

Record Reservation : Type := {
  Instances : list Instance
}.

Definition InstanceStateNamePending := "pending".
Definition InstanceStateNameRunning := "running".
Definition InstanceStateNameStopping := "stopping".
Definition InstanceStateNameStopped := "stopped".

End types.

Module ec2.

Record DescribeInstancesOutput : Type := {
  Reservations : list types.Reservation
}.

Record StartInstancesInput : Type := {
  StartInstanceIds : list string
}.

Record StopInstancesInput : Type := {
  StopInstanceIds : list string
}.

End ec2.

(** ** The display record *)

Record Instance : Type := {
  GlobalIP : string;
  InstanceId : string;
  Name : string;
  Platform : string;
  PrivateIp : string;
  SecurityGroupId : string;
  State : string
}.

(** ** [joinStrings] *)

Definition joinStrings (slice : list string) (sep : string) : string :=
  match slice with
  | [] => ""
  | first :: rest =>
      fold_left (fun result s => result ++ (sep ++ s)) rest first
  end.

(** ** The body of [getInstances], loop by loop *)

(** Lines 57-63: the scan for the [Name] tag, leaving at the first match. *)
Fixpoint scanNameTag (tags : list types.Tag) : outcome string :=
  match tags with
  | [] => Ok ""
  | tag :: rest =>
      key <- deref (types.Key tag) ;;
      if key =? "Name" then deref (types.Value tag) else scanNameTag rest
  end.

(** Lines 84-87: [sgIDs = append(sgIDs, *sg.GroupId)]. *)
Fixpoint collectGroupIds (sgs : list types.GroupIdentifier)
    (sgIDs : list string) : outcome (list string) :=
  match sgs with
  | [] => Ok sgIDs
  | sg :: rest =>
      id <- deref (types.GroupId sg) ;;
      collectGroupIds rest (sgIDs ++ [id])%list
  end.

Definition platformOf (instance : types.Instance) : string :=
  if types.Platform instance =? "" then "None" else types.Platform instance.

Definition publicIPOf (instance : types.Instance) : string :=
  match types.PublicIpAddress instance with
  | Some a => a
  | None => ""
  end.

Definition privateIPOf (instance : types.Instance) : string :=
  match types.NetworkInterfaces instance with
  | ni :: _ =>
      match types.PrivateIpAddress ni with
      | Some a => a
      | None => ""
      end
  | [] => ""
  end.

(** Lines 57-97: one iteration of the inner loop. *)
Definition convertInstance (instance : types.Instance) : outcome Instance :=
  name <- scanNameTag (types.Tags instance) ;;
  let platform := platformOf instance in
  let publicIP := publicIPOf instance in
  let privateIP := privateIPOf instance in
  sgIDs <- collectGroupIds (types.SecurityGroups instance) [] ;;
  instanceId <- deref (types.InstanceId instance) ;;
  state <- deref (types.State instance) ;;
  Ok {| GlobalIP := publicIP;
        InstanceId := instanceId;
        Name := name;
        Platform := platform;
        PrivateIp := privateIP;
        SecurityGroupId := joinStrings sgIDs ", ";
        State := types.Name state |}.

(** Line 56: the loop over one reservation, appending to [instances]. *)
Fixpoint instancesLoop (insts : list types.Instance)
    (instances : list Instance) : outcome (list Instance) :=
  match insts with
  | [] => Ok instances
  | instance :: rest =>
      r <- convertInstance instance ;;
      instancesLoop rest (instances ++ [r])%list
  end.

(** Line 55: the loop over the reservations. *)
Fixpoint reservationsLoop (rs : list types.Reservation)
    (instances : list Instance) : outcome (list Instance) :=
  match rs with
  | [] => Ok instances
  | reservation :: rest =>
      instances' <- instancesLoop (types.Instances reservation) instances ;;
      reservationsLoop rest instances'
  end.

(** Lines 54-101: what [getInstances] does with a response it received. *)
Definition mapResponse (result : ec2.DescribeInstancesOutput)
    : outcome (list Instance) :=
  reservationsLoop (ec2.Reservations result) [].

(** ** Loading the SDK configuration (aws-sdk-go-v2, [config]) *)

Module config.

(** The two fields of the SDK's [LoadOptions] that [main.go] sets; the
    empty string is a field left unset. *)
Record LoadOptions : Type := {
  SharedConfigProfile : string;
  Region : string
}.

Definition LoadOptionsFunc : Type := LoadOptions -> LoadOptions.

Definition WithSharedConfigProfile (v : string) : LoadOptionsFunc :=
  fun o => {| SharedConfigProfile := v; Region := Region o |}.

Definition WithRegion (v : string) : LoadOptionsFunc :=
  fun o => {| SharedConfigProfile := SharedConfigProfile o; Region := v |}.

(** [LoadDefaultConfig] starts from empty options and runs the option
    functions of its caller in order; everything after that (shared
    config and credential files, environment variables, credential
    providers) is the host's resolver [resolve]. *)
Definition applyOptFns (optFns : list LoadOptionsFunc) : LoadOptions :=
  fold_left (fun o f => f o) optFns
    {| SharedConfigProfile := ""; Region := "" |}.

Definition LoadDefaultConfig {Config : Type}
    (resolve : LoadOptions -> Config + error)
    (optFns : list LoadOptionsFunc) : Config + error :=
  resolve (applyOptFns optFns).

End config.

(** ** The provider and the client *)

Inductive Call : Type :=
| CallDescribeInstances
| CallStartInstances (ids : list string)
| CallStopInstances (ids : list string).

(** [EC2Client]: the handle on the remote service, with the calls issued
    so far (a ghost field, most recent call last). *)
Record EC2Client (Service : Type) : Type := {
  client : Service;
  issued : list Call
}.
Arguments client {Service} _.
Arguments issued {Service} _.

(** The option functions [NewEC2Client] hands to [LoadDefaultConfig]
    (lines 34-35). *)
Definition NewEC2Client_optFns (profile : string) : list config.LoadOptionsFunc :=
  [config.WithSharedConfigProfile profile; config.WithRegion "ap-northeast-1"].

Section Host.

(** The host's configuration resolver and the SDK's client constructor. *)
Variable Config : Type.
Variable Service : Type.
Variable resolve : config.LoadOptions -> Config + error.
Variable NewFromConfig : Config -> Service.

Definition NewEC2Client (profile : string) : EC2Client Service + error :=
  match config.LoadDefaultConfig resolve (NewEC2Client_optFns profile) with
  | inr err => inr ("unable to load SDK config: " ++ err)
  | inl cfg => inl {| client := NewFromConfig cfg; issued := [] |}
  end.

End Host.

Section Provider.

(** The remote service: a state and the three operations consumed. *)
Variable Service : Type.
Variable DescribeInstances :
  Service -> (ec2.DescribeInstancesOutput + error) * Service.
Variable StartInstances :
  ec2.StartInstancesInput -> Service -> option error * Service.
Variable StopInstances :
  ec2.StopInstancesInput -> Service -> option error * Service.

Definition getInstances (c : EC2Client Service)
    : outcome (list Instance) * EC2Client Service :=
  let '(result, svc) := DescribeInstances (client c) in
  let c' := {| client := svc;
               issued := (issued c ++ [CallDescribeInstances])%list |} in
  match result with
  | inr err => (Err err, c')
  | inl result => (mapResponse result, c')
  end.

Definition startInstance (instanceID : string) (c : EC2Client Service)
    : option error * EC2Client Service :=
  let input := {| ec2.StartInstanceIds := [instanceID] |} in
  let '(err, svc) := StartInstances input (client c) in
  (err, {| client := svc;
           issued := (issued c ++ [CallStartInstances [instanceID]])%list |}).

Definition stopInstance (instanceID : string) (c : EC2Client Service)
    : option error * EC2Client Service :=
  let input := {| ec2.StopInstanceIds := [instanceID] |} in
  let '(err, svc) := StopInstances input (client c) in
  (err, {| client := svc;
           issued := (issued c ++ [CallStopInstances [instanceID]])%list |}).

End Provider.

(** ** The terminal library ([tcell]) *)

Module tcell.

(** [ColorDefault] is the zero value; the other four are the named colours
    that occur in [main.go] or as the widget library's text colour. *)
Inductive Color : Type :=
| ColorDefault
| ColorWhite
| ColorGreen
| ColorRed
| ColorYellow.

Inductive Key : Type :=
| KeyRune
| KeyEnter
| KeyEscape
| KeyTab
| KeyUp
| KeyDown
| KeyCtrlC.

(** A key event; [Rune] is a code point and is meaningful for [KeyRune]. *)
Record EventKey : Type := {
  key : Key;
  rune : N
}.

End tcell.

(** The rune literal ['c']. *)
Definition runeOf (c : ascii) : N := N_of_ascii c.

(** ** The widget library ([tview]), as far as [main.go] uses it *)

Module tview.

Record TableCell : Type := {
  Text : string;
  Color : tcell.Color;
  NotSelectable : bool
}.

(** [Styles.PrimaryTextColor], the colour of a cell nobody coloured. *)
Definition PrimaryTextColor : tcell.Color := tcell.ColorWhite.

Definition NewTableCell (text : string) : TableCell :=
  {| Text := text; Color := PrimaryTextColor; NotSelectable := false |}.

Definition SetTextColor (color : tcell.Color) (c : TableCell) : TableCell :=
  {| Text := Text c; Color := color; NotSelectable := NotSelectable c |}.

Definition SetSelectable (selectable : bool) (c : TableCell) : TableCell :=
  {| Text := Text c; Color := Color c; NotSelectable := negb selectable |}.

(** [&TableCell{}], what fills a gap and what [GetCell] answers off the
    table. *)
Definition emptyCell : TableCell :=
  {| Text := ""; Color := tcell.ColorDefault; NotSelectable := false |}.

Record Table : Type := {
  cells : list (list TableCell);
  selectedRow : nat;
  rowsSelectable : bool;
  columnsSelectable : bool
}.

Definition NewTable : Table :=
  {| cells := []; selectedRow := 0;
     rowsSelectable := false; columnsSelectable := false |}.

Definition TableSetSelectable (rows columns : bool) (t : Table) : Table :=
  {| cells := cells t; selectedRow := selectedRow t;
     rowsSelectable := rows; columnsSelectable := columns |}.

Definition withCells (t : Table) (cs : list (list TableCell)) : Table :=
  {| cells := cs; selectedRow := selectedRow t;
     rowsSelectable := rowsSelectable t;
     columnsSelectable := columnsSelectable t |}.

(** [l] extended with copies of [d] until position [n] exists. *)
Definition growTo {A : Type} (n : nat) (d : A) (l : list A) : list A :=
  (l ++ repeat d (S n - List.length l))%list.

Fixpoint replaceNth {A : Type} (n : nat) (x : A) (l : list A) : list A :=
  match l, n with
  | [], _ => []
  | _ :: tl, 0 => x :: tl
  | hd :: tl, S m => hd :: replaceNth m x tl
  end.

(** [SetCell]: the table grows by empty rows up to [row], the row by empty
    cells up to [column], and the cell is stored. *)
Definition SetCell (row column : nat) (cell : TableCell) (t : Table) : Table :=
  let rows := growTo row [] (cells t) in
  let line := growTo column emptyCell (nth row rows []) in
  withCells t (replaceNth row (replaceNth column cell line) rows).

Fixpoint removeNth {A : Type} (n : nat) (l : list A) : list A :=
  match l, n with
  | [], _ => []
  | _ :: tl, 0 => tl
  | hd :: tl, S m => hd :: removeNth m tl
  end.

(** [RemoveRow]: nothing happens for a row the table does not have. *)
Definition RemoveRow (row : nat) (t : Table) : Table :=
  withCells t (removeNth row (cells t)).

Definition GetRowCount (t : Table) : nat := List.length (cells t).

Definition GetCell (row column : nat) (t : Table) : TableCell :=
  nth column (nth row (cells t) []) emptyCell.

Definition GetSelection (t : Table) : nat := selectedRow t.

Definition Select (row : nat) (t : Table) : Table :=
  {| cells := cells t; selectedRow := row;
     rowsSelectable := rowsSelectable t;
     columnsSelectable := columnsSelectable t |}.

(** What the application shows: the table with the help line under it, the
    table alone, or a modal with its text. *)
Inductive Root : Type :=
| RootFlex (help : string)
| RootTable
| RootModal (text : string).

Inductive Status : Type :=
| Running
| Stopped
| Aborted.

Record Application : Type := {
  root : Root;
  status : Status
}.

Definition SetRoot (r : Root) (a : Application) : Application :=
  {| root := r; status := status a |}.

Definition Stop (a : Application) : Application :=
  {| root := root a; status := Stopped |}.

End tview.

(** ** The dashboard ([main]) *)

Definition headers : list string :=
  ["GlobalIP"; "InstanceId"; "Name"; "Platform"; "PrivateIp";
   "SecurityGroupId"; "State"].

(** Lines 147-152: the header row, cell by cell. *)
Fixpoint setHeaders (hs : list string) (i : nat) (table : tview.Table)
    : tview.Table :=
  match hs with
  | [] => table
  | header :: rest =>
      setHeaders rest (S i)
        (tview.SetCell 0 i
           (tview.SetSelectable false
              (tview.SetTextColor tcell.ColorYellow
                 (tview.NewTableCell header)))
           table)
  end.

(** Lines 176-184: the [State] cell and its colour. *)
Definition stateCell (instance : Instance) : tview.TableCell :=
  let stateCell := tview.NewTableCell (State instance) in
  if State instance =? types.InstanceStateNameRunning then
    tview.SetTextColor tcell.ColorGreen stateCell
  else if State instance =? types.InstanceStateNameStopped then
    tview.SetTextColor tcell.ColorRed stateCell
  else if (State instance =? types.InstanceStateNamePending)
          || (State instance =? types.InstanceStateNameStopping) then
    tview.SetTextColor tcell.ColorYellow stateCell
  else stateCell.

(** Lines 167-185: one iteration of the loop that fills the table. *)
Definition setRow (row : nat) (instance : Instance) (table : tview.Table)
    : tview.Table :=
  let table := tview.SetCell row 0 (tview.NewTableCell (GlobalIP instance)) table in
  let table := tview.SetCell row 1 (tview.NewTableCell (InstanceId instance)) table in
  let table := tview.SetCell row 2 (tview.NewTableCell (Name instance)) table in
  let table := tview.SetCell row 3 (tview.NewTableCell (Platform instance)) table in
  let table := tview.SetCell row 4 (tview.NewTableCell (PrivateIp instance)) table in
  let table := tview.SetCell row 5 (tview.NewTableCell (SecurityGroupId instance)) table in
  tview.SetCell row 6 (stateCell instance) table.

(** Line 166: [for i, instance := range instances], from index [i] on. *)
Fixpoint fillRows (instances : list Instance) (i : nat) (table : tview.Table)
    : tview.Table :=
  match instances with
  | [] => table
  | instance :: rest => fillRows rest (S i) (setRow (i + 1) instance table)
  end.

(** Lines 161-163: [for row := ...; row >= 1; row--], entered at [row];
    the loop is not entered at row 0, nor at [GetRowCount() - 1 = -1],
    which the truncated subtraction of the caller sends to 0. *)
Fixpoint clearRows (row : nat) (table : tview.Table) : tview.Table :=
  match row with
  | 0 => table
  | S row' => clearRows row' (tview.RemoveRow row table)
  end.

(** Lines 248-257.  The modal keeps its text; its done function is
    [dismissModal]. *)
Definition showMessage (app : tview.Application) (message : string)
    : tview.Application :=
  tview.SetRoot (tview.RootModal message) app.

Definition dismissModal (app : tview.Application) : tview.Application :=
  tview.SetRoot tview.RootTable app.

(** What [main] owns while the event loop runs. *)
Record World (Service : Type) : Type := {
  app : tview.Application;
  table : tview.Table;
  ec2Client : EC2Client Service
}.
Arguments app {Service} _.
Arguments table {Service} _.
Arguments ec2Client {Service} _.

Section Dashboard.

Variable Service : Type.
Variable DescribeInstances :
  Service -> (ec2.DescribeInstancesOutput + error) * Service.
Variable StartInstances :
  ec2.StartInstancesInput -> Service -> option error * Service.
Variable StopInstances :
  ec2.StopInstancesInput -> Service -> option error * Service.

(** The row the table widget selects after it has handled a key itself
    (arrow keys and the like) and has been redrawn. *)
Variable tableSelect : tview.Table -> tcell.EventKey -> nat.

(** Lines 154-189.  The closure's [ec2Client] is passed and returned. *)
Definition refreshTable (table : tview.Table) (c : EC2Client Service)
    : outcome unit * tview.Table * EC2Client Service :=
  let '(r, c') := getInstances Service DescribeInstances c in
  match r with
  | Err err => (Err err, table, c')
  | Panic => (Panic, table, c')
  | Ok instances =>
      let table := clearRows (tview.GetRowCount table - 1) table in
      let table := fillRows instances 0 table in
      (Ok tt, table, c')
  end.

Definition withApp (w : World Service) (a : tview.Application) : World Service :=
  {| app := a; table := table w; ec2Client := ec2Client w |}.

(** Lines 197-230: the table's input capture. *)
Definition inputCapture (w : World Service) (event : tcell.EventKey)
    : outcome tcell.EventKey * World Service :=
  let row := tview.GetSelection (table w) in
  if (row =? 0)%nat then (Ok event, w)
  else
    let instanceID := tview.Text (tview.GetCell row 1 (table w)) in
    match tcell.key event with
    | tcell.KeyRune =>
        if N.eqb (tcell.rune event) (runeOf "s") then
          let '(err, c) :=
            startInstance Service StartInstances instanceID (ec2Client w) in
          let message :=
            match err with
            | Some err => "Error starting instance: " ++ err
            | None => "Starting instance: " ++ instanceID
            end in
          (Ok event,
           {| app := showMessage (app w) message;
              table := table w; ec2Client := c |})
        else if N.eqb (tcell.rune event) (runeOf "t") then
          let '(err, c) :=
            stopInstance Service StopInstances instanceID (ec2Client w) in
          let message :=
            match err with
            | Some err => "Error stopping instance: " ++ err
            | None => "Stopping instance: " ++ instanceID
            end in
          (Ok event,
           {| app := showMessage (app w) message;
              table := table w; ec2Client := c |})
        else if N.eqb (tcell.rune event) (runeOf "q") then
          (Ok event, withApp w (tview.Stop (app w)))
        else if N.eqb (tcell.rune event) (runeOf "r") then
          let '(r, table', c) := refreshTable (table w) (ec2Client w) in
          match r with
          | Err err =>
              (Ok event,
               {| app := showMessage (app w) ("Error refreshing: " ++ err);
                  table := table'; ec2Client := c |})
          | Panic =>
              (Panic, {| app := app w; table := table'; ec2Client := c |})
          | Ok _ =>
              (Ok event, {| app := app w; table := table'; ec2Client := c |})
          end
        else (Ok event, w)
    | _ => (Ok event, w)
    end.

(** One key event through the application's event loop: Ctrl-C stops the
    application, any other key goes to the root.  A modal root is left by
    Enter or Escape, which run its done function, and swallows the rest;
    otherwise the table has the focus, its input capture runs and the
    table handles the key it gets back. *)
Definition step (w : World Service) (event : tcell.EventKey) : World Service :=
  match tview.status (app w) with
  | tview.Running =>
      match tcell.key event with
      | tcell.KeyCtrlC => withApp w (tview.Stop (app w))
      | k =>
          match tview.root (app w) with
          | tview.RootModal _ =>
              match k with
              | tcell.KeyEnter | tcell.KeyEscape =>
                  withApp w (dismissModal (app w))
              | _ => w
              end
          | _ =>
              match inputCapture w event with
              | (Ok event', w') =>
                  {| app := app w';
                     table := tview.Select (tableSelect (table w') event')
                                (table w');
                     ec2Client := ec2Client w' |}
              | (_, w') =>
                  withApp w' {| tview.root := tview.root (app w');
                                tview.status := tview.Aborted |}
              end
          end
      end
  | _ => w
  end.

Definition run (events : list tcell.EventKey) (w : World Service) : World Service :=
  fold_left step events w.

End Dashboard.

Section Startup.

Variable Config : Type.
Variable Service : Type.
Variable resolve : config.LoadOptions -> Config + error.
Variable NewFromConfig : Config -> Service.
Variable DescribeInstances :
  Service -> (ec2.DescribeInstancesOutput + error) * Service.

Definition helpText (profile : string) : string :=
  "[Profile: " ++ profile ++ "]  Keys: [s] Start  [t] Stop  [r] Refresh  [q] Quit".

(** Lines 131-243, up to the call of [Run]: [Err] is [log.Fatal]. *)
Definition main (profile : string) : outcome (World Service) :=
  match NewEC2Client Config Service resolve NewFromConfig profile with
  | inr err => Err ("Failed to create EC2 client: " ++ err)
  | inl ec2Client =>
      let table := tview.TableSetSelectable true false tview.NewTable in
      let table := setHeaders headers 0 table in
      let '(r, table, ec2Client) :=
        refreshTable Service DescribeInstances table ec2Client in
      _ <- r ;;
      Ok {| app := {| tview.root := tview.RootFlex (helpText profile);
                      tview.status := tview.Running |};
            table := table;
            ec2Client := ec2Client |}
  end.

End Startup.

Arguments NewEC2Client {Config Service} resolve NewFromConfig profile.
Arguments getInstances {Service} DescribeInstances c.
Arguments startInstance {Service} StartInstances instanceID c.
Arguments stopInstance {Service} StopInstances instanceID c.
Arguments refreshTable {Service} DescribeInstances table c.
Arguments withApp {Service} w a.
Arguments inputCapture {Service} DescribeInstances StartInstances StopInstances w event.
Arguments step {Service} DescribeInstances StartInstances StopInstances tableSelect w event.
Arguments run {Service} DescribeInstances StartInstances StopInstances tableSelect events w.
Arguments main {Config Service} resolve NewFromConfig DescribeInstances profile.

(** ** Predicates and reference functions used in the statements *)

Definition isSome {A : Type} (p : option A) : bool :=
  match p with
  | Some _ => true
  | None => false
  end.

(** The outcome of a call whose value is dropped. *)
Definition discard {A : Type} (c : outcome A) : outcome unit :=
  match c with
  | Ok _ => Ok tt
  | Err e => Err e
  | Panic => Panic
  end.

(** The instances of a response, reservation after reservation. *)
Definition flatten (result : ec2.DescribeInstancesOutput) : list types.Instance :=
  List.concat (map types.Instances (ec2.Reservations result)).

(** N: the number of instance records of a response. *)
Definition instanceCount (result : ec2.DescribeInstancesOutput) : nat :=
  list_sum (map (fun r => List.length (types.Instances r))
                (ec2.Reservations result)).

Definition keyIs (k : string) (tag : types.Tag) : bool :=
  match types.Key tag with
  | Some k' => k' =? k
  | None => false
  end.

(** The display name in the words of the specification: the value of the
    first tag whose key is exactly [Name], empty without such a tag. *)
Definition displayNameOf (tags : list types.Tag) : string :=
  match find (keyIs "Name") tags with
  | Some tag =>
      match types.Value tag with
      | Some v => v
      | None => ""
      end
  | None => ""
  end.

(** The pointers the tag scan reads are set: every key up to and including
    the first [Name] tag, and the value of that tag. *)
Fixpoint tagScanDefined (tags : list types.Tag) : bool :=
  match tags with
  | [] => true
  | tag :: rest =>
      match types.Key tag with
      | None => false
      | Some k =>
          if k =? "Name" then isSome (types.Value tag)
          else tagScanDefined rest
      end
  end.

(** The pointers [getInstances] reads of one instance are set. *)
Definition instanceDefined (instance : types.Instance) : bool :=
  tagScanDefined (types.Tags instance)
  && forallb (fun sg => isSome (types.GroupId sg))
             (types.SecurityGroups instance)
  && isSome (types.InstanceId instance)
  && isSome (types.State instance).

Definition responseDefined (result : ec2.DescribeInstancesOutput) : bool :=
  forallb instanceDefined (flatten result).

(** The precondition in its blanket form: every instance identifier, every
    tag key and value and every group identifier of the instance is set. *)
Definition allPointersSet (instance : types.Instance) : bool :=
  forallb (fun tag => isSome (types.Key tag) && isSome (types.Value tag))
          (types.Tags instance)
  && forallb (fun sg => isSome (types.GroupId sg))
             (types.SecurityGroups instance)
  && isSome (types.InstanceId instance).

(** The help line is on screen only under the flex layout. *)
Definition helpDisplayed {Service : Type} (w : World Service) : bool :=
  match tview.root (app w) with
  | tview.RootFlex _ => true
  | _ => false
  end.

Definition isModal (r : tview.Root) : bool :=
  match r with
  | tview.RootModal _ => true
  | _ => false
  end.

Definition runeEvent (c : ascii) : tcell.EventKey :=
  {| tcell.key := tcell.KeyRune; tcell.rune := runeOf c |}.

Definition keyEvent (k : tcell.Key) : tcell.EventKey :=
  {| tcell.key := k; tcell.rune := 0%N |}.

(** ** Concrete responses, providers and worlds *)

Module Sample.

Definition tag (k v : string) : types.Tag :=
  {| types.Key := Some k; types.Value := Some v |}.

Definition group (id : string) : types.GroupIdentifier :=
  {| types.GroupId := Some id |}.

Definition web1 : types.Instance :=
  {| types.Tags := [tag "other" "x"; tag "Name" "web-1"; tag "Name" "ignored-dup"];
     types.Platform := "";
     types.PublicIpAddress := Some "203.0.113.7";
     types.NetworkInterfaces :=
       [{| types.PrivateIpAddress := Some "10.0.0.5" |};
        {| types.PrivateIpAddress := Some "10.0.1.5" |}];
     types.SecurityGroups := [group "sg-1"; group "sg-2"];
     types.InstanceId := Some "i-0a1";
     types.State := Some {| types.Name := "running" |} |}.

Definition db1 : types.Instance :=
  {| types.Tags := [];
     types.Platform := "windows";
     types.PublicIpAddress := None;
     types.NetworkInterfaces := [];
     types.SecurityGroups := [];
     types.InstanceId := Some "i-0b2";
     types.State := Some {| types.Name := "stopped" |} |}.

(** An instance with a tag that carries a key and no value. *)
Definition batch1 : types.Instance :=
  {| types.Tags := [{| types.Key := Some "Env"; types.Value := None |}];
     types.Platform := "";
     types.PublicIpAddress := None;
     types.NetworkInterfaces := [];
     types.SecurityGroups := [];
     types.InstanceId := Some "i-0c3";
     types.State := Some {| types.Name := "pending" |} |}.

(** An instance without identifier. *)
Definition anonymous : types.Instance :=
  {| types.Tags := [];
     types.Platform := "";
     types.PublicIpAddress := None;
     types.NetworkInterfaces := [];
     types.SecurityGroups := [];
     types.InstanceId := None;
     types.State := Some {| types.Name := "running" |} |}.

Definition response : ec2.DescribeInstancesOutput :=
  {| ec2.Reservations :=
       [{| types.Instances := [web1] |};
        {| types.Instances := [] |};
        {| types.Instances := [db1; batch1] |}] |}.

(** A response whose only instance has a tag without value. *)
Definition keyOnly : ec2.DescribeInstancesOutput :=
  {| ec2.Reservations := [{| types.Instances := [batch1] |}] |}.

(** A response with an instance without identifier. *)
Definition unidentified : ec2.DescribeInstancesOutput :=
  {| ec2.Reservations := [{| types.Instances := [web1; anonymous] |}] |}.

(** A service whose state counts the calls it has answered and which
    answers every call successfully. *)
Definition Service : Type := nat.

Definition describeOk (s : Service)
    : (ec2.DescribeInstancesOutput + error) * Service :=
  (inl response, S s).

Definition describeFails (s : Service)
    : (ec2.DescribeInstancesOutput + error) * Service :=
  (inr "RequestExpired", S s).

Definition startOk (input : ec2.StartInstancesInput) (s : Service)
    : option error * Service :=
  (None, S s).

Definition stopFails (input : ec2.StopInstancesInput) (s : Service)
    : option error * Service :=
  (Some "UnauthorizedOperation", S s).

(** The table widget keeps its selection whatever the key. *)
Definition keepSelection (t : tview.Table) (event : tcell.EventKey) : nat :=
  tview.GetSelection t.

Definition resolveOk (o : config.LoadOptions) : config.LoadOptions + error :=
  inl o.

Definition newService (cfg : config.LoadOptions) : Service := 0.

Definition freshClient : EC2Client Service :=
  {| client := 0; issued := [] |}.

(** The header row followed by the rows of [response]. *)
Definition renderedTable : tview.Table :=
  snd (fst (refreshTable describeOk
              (setHeaders headers 0
                 (tview.TableSetSelectable true false tview.NewTable))
              freshClient)).

(** The dashboard at start-up with the first instance row selected, and
    with the header row selected. *)
Definition world (row : nat) : World Service :=
  {| app := {| tview.root := tview.RootFlex (helpText "default");
               tview.status := tview.Running |};
     table := tview.Select row renderedTable;
     ec2Client := freshClient |}.

Definition modalWorld : World Service :=
  withApp (world 1) (showMessage (app (world 1)) "Starting instance: i-0a1").

End Sample.

(** ** Reference renderings *)

(** The header cell [main] builds for one column title. *)
Definition headerCell (header : string) : tview.TableCell :=
  tview.SetSelectable false
    (tview.SetTextColor tcell.ColorYellow (tview.NewTableCell header)).

(** The seven cells the refresh writes for one record, left to right. *)
Definition renderRow (instance : Instance) : list tview.TableCell :=
  [tview.NewTableCell (GlobalIP instance);
   tview.NewTableCell (InstanceId instance);
   tview.NewTableCell (Name instance);
   tview.NewTableCell (Platform instance);
   tview.NewTableCell (PrivateIp instance);
   tview.NewTableCell (SecurityGroupId instance);
   stateCell instance].

(** The header row of the dashboard. *)
Definition headerRow : list tview.TableCell := map headerCell headers.

(** The records listed for the sample response. *)
Definition sampleRecords : list Instance :=
  match mapResponse Sample.response with
  | Ok instances => instances
  | _ => []
  end.

(** The custom actions of the key handler. *)
Definition isActionRune (r : N) : bool :=
  N.eqb r (runeOf "s") || N.eqb r (runeOf "t")
  || N.eqb r (runeOf "q") || N.eqb r (runeOf "r").

(** The table has the focus: the application runs and no modal is up. *)
Definition tableFocused {Service : Type} (w : World Service) : bool :=
  match tview.status (app w) with
  | tview.Running => negb (isModal (tview.root (app w)))
  | _ => false
  end.

(** * Properties *)

(** ** Strings and [joinStrings] *)

Lemma append_assoc (a b c : string) : (a ++ b) ++ c = a ++ (b ++ c).
Proof.
  induction a as [|ch a IHa]; simpl.
  - reflexivity.
  - now rewrite IHa.
Qed.

Lemma concat_absorb (sep a b : string) (rest : list string) :
  String.concat sep ((a ++ b) :: rest) = a ++ String.concat sep (b :: rest).
Proof.
  destruct rest as [|c rest]; simpl.
  - reflexivity.
  - apply append_assoc.
Qed.

Lemma join_loop_concat (sep : string) (rest : list string) :
  forall first,
    fold_left (fun result s => result ++ (sep ++ s)) rest first
    = String.concat sep (first :: rest).
Proof.
  induction rest as [|s rest IH]; intros first.
  - reflexivity.
  - cbn [fold_left]. rewrite IH, concat_absorb.
    change (String.concat sep (first :: s :: rest))
      with (first ++ sep ++ String.concat sep (s :: rest)).
    now rewrite concat_absorb.
Qed.

(** [joinStrings] is the library's [concat], separator first. *)
Lemma joinStrings_concat (slice : list string) (sep : string) :
  joinStrings slice sep = String.concat sep slice.
Proof.
  destruct slice as [|first rest].
  - reflexivity.
  - apply join_loop_concat.
Qed.

(** ** The loops of [getInstances] *)

Lemma collectGroupIds_present (ids : list string) :
  forall sgs acc,
    map types.GroupId sgs = map Some ids ->
    collectGroupIds sgs acc = Ok (acc ++ ids)%list.
Proof.
  induction ids as [|id ids IH]; intros [|sg sgs] acc Hmap;
    try discriminate; simpl in *.
  - now rewrite app_nil_r.
  - injection Hmap as Hsg Hrest. rewrite Hsg. simpl.
    rewrite (IH sgs _ Hrest), <- app_assoc. reflexivity.
Qed.

Lemma collectGroupIds_defined (sgs : list types.GroupIdentifier) :
  forall acc,
    forallb (fun sg => isSome (types.GroupId sg)) sgs = true ->
    exists ids, map types.GroupId sgs = map Some ids
                /\ collectGroupIds sgs acc = Ok (acc ++ ids)%list.
Proof.
  induction sgs as [|sg sgs IH]; intros acc Hall; simpl in *.
  - exists []. now rewrite app_nil_r.
  - apply andb_true_iff in Hall as [Hsg Hall].
    destruct (types.GroupId sg) as [id|] eqn:Hid; [|discriminate].
    destruct (IH (acc ++ [id])%list Hall) as [ids [Hmap Hrun]].
    exists (id :: ids). simpl. rewrite Hmap, Hrun, <- app_assoc.
    now split.
Qed.

Lemma collectGroupIds_undefined (sgs : list types.GroupIdentifier) :
  forall acc,
    forallb (fun sg => isSome (types.GroupId sg)) sgs = false ->
    collectGroupIds sgs acc = Panic.
Proof.
  induction sgs as [|sg sgs IH]; intros acc Hall; simpl in *.
  - discriminate.
  - destruct (types.GroupId sg) as [id|]; simpl in *.
    + now apply IH.
    + reflexivity.
Qed.

(** On a scan whose pointers are set the loop finds the display name. *)
Lemma scanNameTag_defined (tags : list types.Tag) :
  tagScanDefined tags = true ->
  scanNameTag tags = Ok (displayNameOf tags).
Proof.
  unfold displayNameOf.
  induction tags as [|tag tags IH]; intros Hdef; simpl in *.
  - reflexivity.
  - unfold keyIs at 1.
    destruct (types.Key tag) as [k|]; [|discriminate]. simpl.
    destruct (k =? "Name").
    + destruct (types.Value tag); [reflexivity | discriminate].
    + now apply IH.
Qed.

Lemma scanNameTag_undefined (tags : list types.Tag) :
  tagScanDefined tags = false ->
  scanNameTag tags = Panic.
Proof.
  induction tags as [|tag tags IH]; intros Hdef; simpl in *.
  - discriminate.
  - destruct (types.Key tag) as [k|]; [|reflexivity]. simpl.
    destruct (k =? "Name").
    + destruct (types.Value tag); [discriminate | reflexivity].
    + now apply IH.
Qed.

(** The tags behind the first [Name] tag are never looked at. *)
Lemma scanNameTag_first_match (pre rest : list types.Tag) (tag : types.Tag)
    (v : string) :
  Forall (fun t => exists k, types.Key t = Some k /\ k <> "Name") pre ->
  types.Key tag = Some "Name" ->
  types.Value tag = Some v ->
  scanNameTag (pre ++ tag :: rest) = Ok v.
Proof.
  intros Hpre Hkey Hval.
  induction Hpre as [|t pre [k [Hk Hne]] _ IH]; simpl.
  - now rewrite Hkey, Hval.
  - rewrite Hk. simpl.
    apply String.eqb_neq in Hne. now rewrite Hne.
Qed.

Lemma scanNameTag_no_match (tags : list types.Tag) :
  Forall (fun t => exists k, types.Key t = Some k /\ k <> "Name") tags ->
  scanNameTag tags = Ok "".
Proof.
  intros Htags.
  induction Htags as [|t tags [k [Hk Hne]] _ IH]; simpl.
  - reflexivity.
  - rewrite Hk. simpl.
    apply String.eqb_neq in Hne. now rewrite Hne.
Qed.

(** What one iteration yields when the pointers it reads are set. *)
Lemma convertInstance_defined (instance : types.Instance) :
  instanceDefined instance = true ->
  exists ids id st,
    map types.GroupId (types.SecurityGroups instance) = map Some ids
    /\ types.InstanceId instance = Some id
    /\ types.State instance = Some st
    /\ convertInstance instance
       = Ok {| GlobalIP := publicIPOf instance;
               InstanceId := id;
               Name := displayNameOf (types.Tags instance);
               Platform := platformOf instance;
               PrivateIp := privateIPOf instance;
               SecurityGroupId := joinStrings ids ", ";
               State := types.Name st |}.
Proof.
  unfold instanceDefined, convertInstance. intros Hdef.
  apply andb_true_iff in Hdef as [Hdef Hst].
  apply andb_true_iff in Hdef as [Hdef Hid].
  apply andb_true_iff in Hdef as [Htags Hsgs].
  destruct (collectGroupIds_defined _ [] Hsgs) as [ids [Hmap Hrun]].
  destruct (types.InstanceId instance) as [id|]; [|discriminate].
  destruct (types.State instance) as [st|]; [|discriminate].
  exists ids, id, st.
  rewrite (scanNameTag_defined _ Htags), Hrun. simpl.
  repeat split; assumption.
Qed.

Lemma convertInstance_undefined (instance : types.Instance) :
  instanceDefined instance = false ->
  convertInstance instance = Panic.
Proof.
  unfold instanceDefined, convertInstance. intros Hdef.
  destruct (tagScanDefined (types.Tags instance)) eqn:Htags.
  - rewrite (scanNameTag_defined _ Htags). simpl.
    destruct (forallb _ (types.SecurityGroups instance)) eqn:Hsgs.
    + destruct (collectGroupIds_defined _ [] Hsgs) as [ids [_ Hrun]].
      rewrite Hrun. simpl.
      destruct (types.InstanceId instance); [|reflexivity].
      destruct (types.State instance); [discriminate | reflexivity].
    + now rewrite (collectGroupIds_undefined _ [] Hsgs).
  - now rewrite (scanNameTag_undefined _ Htags).
Qed.

Lemma convertInstance_ok_iff (instance : types.Instance) :
  isOk (convertInstance instance) = instanceDefined instance.
Proof.
  destruct (instanceDefined instance) eqn:Hdef.
  - destruct (convertInstance_defined _ Hdef)
      as [ids [id [st [_ [_ [_ Hrun]]]]]].
    now rewrite Hrun.
  - now rewrite (convertInstance_undefined _ Hdef).
Qed.

(** The inner loop appends one record per instance, in order. *)
Lemma instancesLoop_defined (insts : list types.Instance) :
  forall acc,
    forallb instanceDefined insts = true ->
    exists recs,
      instancesLoop insts acc = Ok (acc ++ recs)%list
      /\ Forall2 (fun i r => convertInstance i = Ok r) insts recs.
Proof.
  induction insts as [|i insts IH]; intros acc Hall; simpl in *.
  - exists []. rewrite app_nil_r. split; [reflexivity | constructor].
  - apply andb_true_iff in Hall as [Hi Hall].
    destruct (convertInstance i) as [r| |] eqn:Hconv;
      try (rewrite <- convertInstance_ok_iff, Hconv in Hi; discriminate).
    destruct (IH (acc ++ [r])%list Hall) as [recs [Hrun Hrecs]].
    exists (r :: recs). simpl. rewrite Hrun, <- app_assoc.
    split; [reflexivity | now constructor].
Qed.

Lemma instancesLoop_undefined (insts : list types.Instance) :
  forall acc,
    forallb instanceDefined insts = false ->
    instancesLoop insts acc = Panic.
Proof.
  induction insts as [|i insts IH]; intros acc Hall; simpl in *.
  - discriminate.
  - destruct (instanceDefined i) eqn:Hi; simpl in Hall.
    + destruct (convertInstance_defined _ Hi)
        as [ids [id [st [_ [_ [_ Hrun]]]]]].
      rewrite Hrun. simpl. now apply IH.
    + now rewrite (convertInstance_undefined _ Hi).
Qed.

(** The outer loop does the same over the flattened reservations. *)
Lemma reservationsLoop_defined (rs : list types.Reservation) :
  forall acc,
    forallb instanceDefined (List.concat (map types.Instances rs)) = true ->
    exists recs,
      reservationsLoop rs acc = Ok (acc ++ recs)%list
      /\ Forall2 (fun i r => convertInstance i = Ok r)
                 (List.concat (map types.Instances rs)) recs.
Proof.
  induction rs as [|r rs IH]; intros acc Hall; simpl in *.
  - exists []. rewrite app_nil_r. split; [reflexivity | constructor].
  - rewrite forallb_app in Hall. apply andb_true_iff in Hall as [Hr Hall].
    destruct (instancesLoop_defined _ acc Hr) as [recs1 [Hrun1 Hrecs1]].
    destruct (IH (acc ++ recs1)%list Hall) as [recs2 [Hrun2 Hrecs2]].
    exists (recs1 ++ recs2)%list. rewrite Hrun1. simpl.
    rewrite Hrun2, <- app_assoc.
    split; [reflexivity | now apply Forall2_app].
Qed.

Lemma reservationsLoop_undefined (rs : list types.Reservation) :
  forall acc,
    forallb instanceDefined (List.concat (map types.Instances rs)) = false ->
    reservationsLoop rs acc = Panic.
Proof.
  induction rs as [|r rs IH]; intros acc Hall; simpl in *.
  - discriminate.
  - rewrite forallb_app in Hall.
    destruct (forallb instanceDefined (types.Instances r)) eqn:Hr;
      simpl in Hall.
    + destruct (instancesLoop_defined _ acc Hr) as [recs1 [Hrun1 _]].
      rewrite Hrun1. simpl. now apply IH.
    + now rewrite (instancesLoop_undefined _ acc Hr).
Qed.

Lemma length_flatten (result : ec2.DescribeInstancesOutput) :
  List.length (flatten result) = instanceCount result.
Proof.
  unfold flatten, instanceCount.
  induction (ec2.Reservations result) as [|r rs IH]; simpl.
  - reflexivity.
  - now rewrite length_app, IH.
Qed.

Lemma map_Some_inj {A : Type} (l1 : list A) :
  forall l2, map Some l1 = map Some l2 -> l1 = l2.
Proof.
  induction l1 as [|a l1 IH]; intros [|b l2] Heq; try discriminate.
  - reflexivity.
  - simpl in Heq. injection Heq as Hab Hrest.
    subst b. f_equal. now apply IH.
Qed.

(** The scan's pointers are set exactly when the tags are keyed, and keyed
    other than [Name], either throughout or up to a [Name] tag with a
    value; what follows that tag is arbitrary. *)
Lemma tagScanDefined_spec (tags : list types.Tag) :
  tagScanDefined tags = true <->
  (Forall (fun t => exists k, types.Key t = Some k /\ k <> "Name") tags
   \/ exists pre tag v rest,
        tags = (pre ++ tag :: rest)%list
        /\ Forall (fun t => exists k, types.Key t = Some k /\ k <> "Name") pre
        /\ types.Key tag = Some "Name"
        /\ types.Value tag = Some v).
Proof.
  split.
  - induction tags as [|t tags IH]; simpl; intros Hdef.
    + left. constructor.
    + destruct (types.Key t) as [k|] eqn:Hk; [|discriminate].
      destruct (String.eqb_spec k "Name") as [Hname|Hother].
      * destruct (types.Value t) as [v|] eqn:Hv; [|discriminate].
        right. exists [], t, v, tags. subst k.
        repeat split; [constructor | assumption | assumption].
      * destruct (IH Hdef) as [Hall | [pre [tag [v [rest [Heq [Hpre [Hkey Hval]]]]]]]].
        -- left. constructor; [exists k; now split | assumption].
        -- right. exists (t :: pre), tag, v, rest. subst tags.
           repeat split; try assumption.
           constructor; [exists k; now split | assumption].
  - intros [Hall | [pre [tag [v [rest [Heq [Hpre [Hkey Hval]]]]]]]].
    + induction Hall as [|t tags [k [Hk Hne]] _ IH]; simpl.
      * reflexivity.
      * rewrite Hk. apply String.eqb_neq in Hne. now rewrite Hne.
    + subst tags.
      induction Hpre as [|t pre [k [Hk Hne]] _ IH]; simpl.
      * now rewrite Hkey, Hval.
      * rewrite Hk. apply String.eqb_neq in Hne. now rewrite Hne.
Qed.

Lemma allPointersSet_defined (instance : types.Instance) :
  allPointersSet instance && isSome (types.State instance) = true ->
  instanceDefined instance = true.
Proof.
  unfold allPointersSet, instanceDefined. intros Hall.
  apply andb_true_iff in Hall as [Hall Hst].
  apply andb_true_iff in Hall as [Hall Hid].
  apply andb_true_iff in Hall as [Htags Hsgs].
  rewrite Hsgs, Hid, Hst, !andb_true_r.
  induction (types.Tags instance) as [|t tags IH]; simpl in *.
  - reflexivity.
  - apply andb_true_iff in Htags as [Ht Htags].
    apply andb_true_iff in Ht as [Hk Hv].
    destruct (types.Key t) as [k|]; [|discriminate].
    destruct (k =? "Name"); [assumption | now apply IH].
Qed.

(** ** The inventory client *)

(** C2.  A response with N instance records, spread over any number of
    reservations, is turned by [getInstances] into exactly N display
    records, the k-th record being the conversion of the k-th instance in
    provider order (reservations in order, instances in order within each):
    nothing is sorted, dropped or repeated.  The response is one whose
    dereferenced pointers are set, the domain on which the mapping is
    defined. *)
Theorem getInstances_flattens_in_order {Service : Type}
    (Describe : Service -> (ec2.DescribeInstancesOutput + error) * Service)
    (c : EC2Client Service) (result : ec2.DescribeInstancesOutput)
    (svc : Service) :
  Describe (client c) = (inl result, svc) ->
  responseDefined result = true ->
  exists instances,
    fst (getInstances Describe c) = Ok instances
    /\ List.length instances = instanceCount result
    /\ Forall2 (fun i r => convertInstance i = Ok r) (flatten result) instances.
Proof.
  intros Hcall Hdef. unfold getInstances. rewrite Hcall. simpl.
  destruct (reservationsLoop_defined _ [] Hdef) as [recs [Hrun Hrecs]].
  exists recs. unfold mapResponse. rewrite Hrun. simpl.
  repeat split.
  - rewrite <- length_flatten. symmetry.
    exact (Forall2_length Hrecs).
  - exact Hrecs.
Qed.

Lemma getInstances_flattens_in_order_witness :
  exists instances,
    fst (getInstances Sample.describeOk Sample.freshClient) = Ok instances
    /\ List.length instances = 3
    /\ Forall2 (fun i r => convertInstance i = Ok r)
               [Sample.web1; Sample.db1; Sample.batch1] instances.
Proof.
  apply (getInstances_flattens_in_order Sample.describeOk Sample.freshClient
           Sample.response 1); reflexivity.
Defined.

(** C5.  The display name of a converted instance is the value of the
    first tag, in provider order, whose key is exactly [Name], and the
    empty string when no tag has that key; later [Name] tags do not
    count. *)
Theorem displayName_first_Name_tag (instance : types.Instance) :
  instanceDefined instance = true ->
  exists r,
    convertInstance instance = Ok r
    /\ Name r = displayNameOf (types.Tags instance).
Proof.
  intros Hdef.
  destruct (convertInstance_defined _ Hdef)
    as [ids [id [st [_ [_ [_ Hrun]]]]]].
  eexists. split; [exact Hrun | reflexivity].
Qed.

Lemma displayName_first_Name_tag_witness :
  exists r, convertInstance Sample.web1 = Ok r /\ Name r = "web-1".
Proof.
  apply (displayName_first_Name_tag Sample.web1). reflexivity.
Defined.

(** C6.  The security-group field of a converted instance is the attached
    group identifiers joined with [", "] in provider order, and the empty
    string for an instance without group. *)
Theorem securityGroups_joined (instance : types.Instance) (ids : list string) :
  instanceDefined instance = true ->
  map types.GroupId (types.SecurityGroups instance) = map Some ids ->
  exists r,
    convertInstance instance = Ok r
    /\ SecurityGroupId r = String.concat ", " ids
    /\ (ids = [] -> SecurityGroupId r = "").
Proof.
  intros Hdef Hids.
  destruct (convertInstance_defined _ Hdef)
    as [ids' [id [st [Hids' [_ [_ Hrun]]]]]].
  rewrite Hids in Hids'. apply map_Some_inj in Hids'. subst ids'.
  eexists. split; [exact Hrun |]. simpl. split.
  - apply joinStrings_concat.
  - intros ->. reflexivity.
Qed.

Lemma securityGroups_joined_witness :
  exists r,
    convertInstance Sample.web1 = Ok r
    /\ SecurityGroupId r = "sg-1, sg-2"
    /\ (["sg-1"; "sg-2"] = [] -> SecurityGroupId r = "").
Proof.
  apply (securityGroups_joined Sample.web1 ["sg-1"; "sg-2"]); reflexivity.
Defined.

(** The two cases of the specification, on the function itself. *)
Example joinStrings_two : joinStrings ["sg-1"; "sg-2"] ", " = "sg-1, sg-2".
Proof. reflexivity. Qed.

Example joinStrings_none : joinStrings [] ", " = "".
Proof. reflexivity. Qed.

(** C9, as stated, fails: an instance with a tag that has a key other than
    [Name] and no value violates the blanket precondition, and the response
    is listed all the same. *)
Lemma blanket_precondition_not_needed :
  forallb allPointersSet (flatten Sample.keyOnly) = false
  /\ mapResponse Sample.keyOnly
     = Ok [{| GlobalIP := ""; InstanceId := "i-0c3"; Name := "";
              Platform := "None"; PrivateIp := ""; SecurityGroupId := "";
              State := "pending" |}].
Proof. split; reflexivity. Qed.

(** C9, amended.  [getInstances] dereferences, of every instance, the
    identifier, the state, the identifier of every security group, the key
    of every tag up to and including the first tag keyed [Name], and the
    value of that tag only.  The mapping is defined exactly when these
    pointers are set, and panics otherwise instead of rendering a default;
    the blanket precondition (every identifier, tag key, tag value and
    group identifier set) is sufficient once the state is set too. *)
Theorem mapResponse_defined_exactly (result : ec2.DescribeInstancesOutput) :
  isOk (mapResponse result) = responseDefined result
  /\ (responseDefined result = false -> mapResponse result = Panic)
  /\ (forallb (fun i => allPointersSet i && isSome (types.State i))
              (flatten result) = true ->
      responseDefined result = true).
Proof.
  unfold mapResponse, responseDefined, flatten.
  assert (Hpanic :
    forallb instanceDefined
      (List.concat (map types.Instances (ec2.Reservations result))) = false ->
    reservationsLoop (ec2.Reservations result) [] = Panic)
    by apply reservationsLoop_undefined.
  split; [|split].
  - destruct (forallb instanceDefined _) eqn:Hdef.
    + destruct (reservationsLoop_defined _ [] Hdef) as [recs [Hrun _]].
      now rewrite Hrun.
    + now rewrite Hpanic.
  - exact Hpanic.
  - intros Hall. apply forallb_forall. intros i Hi.
    apply allPointersSet_defined.
    exact (proj1 (forallb_forall _ _) Hall i Hi).
Qed.

Lemma mapResponse_defined_exactly_witness :
  mapResponse Sample.unidentified = Panic.
Proof.
  apply (proj1 (proj2 (mapResponse_defined_exactly _))). reflexivity.
Defined.

(** ** Client construction *)

(** C1, as stated, fails: the options handed to the configuration loader
    do not leave the region to the host, they name one. *)
Lemma NewEC2Client_names_a_region :
  config.Region (config.applyOptFns (NewEC2Client_optFns "default"))
  = "ap-northeast-1"
  /\ config.Region (config.applyOptFns (NewEC2Client_optFns "default")) <> "".
Proof. split; [reflexivity | discriminate]. Qed.

(** C1, amended.  For every profile, [NewEC2Client] asks the host's
    configuration mechanism for the named profile with the region fixed to
    [ap-northeast-1], and does nothing else: the client is built from the
    configuration the host resolves, and a failure of the host is
    returned, wrapped.  Credentials are the host's business, the region is
    not. *)
Theorem NewEC2Client_fixed_region {Config Service : Type}
    (resolve : config.LoadOptions -> Config + error)
    (NewFromConfig : Config -> Service) (profile : string) :
  config.applyOptFns (NewEC2Client_optFns profile)
  = {| config.SharedConfigProfile := profile;
       config.Region := "ap-northeast-1" |}
  /\ NewEC2Client resolve NewFromConfig profile
     = match resolve {| config.SharedConfigProfile := profile;
                        config.Region := "ap-northeast-1" |} with
       | inl cfg => inl {| client := NewFromConfig cfg; issued := [] |}
       | inr err => inr ("unable to load SDK config: " ++ err)
       end.
Proof.
  split; [reflexivity |].
  unfold NewEC2Client, config.LoadDefaultConfig.
  change (config.applyOptFns (NewEC2Client_optFns profile))
    with {| config.SharedConfigProfile := profile;
            config.Region := "ap-northeast-1" |}.
  destruct (resolve _); reflexivity.
Qed.

(** ** The table widget *)

Lemma growTo_length {A : Type} (n : nat) (d : A) (l : list A) :
  n < List.length (tview.growTo n d l).
Proof.
  unfold tview.growTo. rewrite length_app, repeat_length. lia.
Qed.

Lemma nth_replaceNth {A : Type} (x d : A) (l : list A) :
  forall n, n < List.length l -> nth n (tview.replaceNth n x l) d = x.
Proof.
  induction l as [|hd tl IH]; intros [|n] Hn; simpl in *; try lia.
  - reflexivity.
  - apply IH. lia.
Qed.

Lemma GetCell_SetCell (row column : nat) (cell : tview.TableCell)
    (t : tview.Table) :
  tview.GetCell row column (tview.SetCell row column cell t) = cell.
Proof.
  unfold tview.GetCell, tview.SetCell. simpl.
  rewrite nth_replaceNth by apply growTo_length.
  apply nth_replaceNth, growTo_length.
Qed.

(** ** The state cell *)

(** C7.  The colour of the [State] cell the refresh stores in column 6 is
    a function of the power state alone: green for [running], red for
    [stopped], yellow for [pending] and [stopping], and the colour of an
    untouched cell for every other value; two records with the same power
    state get the same cell whatever their other fields. *)
Theorem stateCell_colour (row : nat) (instance : Instance) (t : tview.Table) :
  tview.GetCell row 6 (setRow row instance t) = stateCell instance
  /\ tview.Text (stateCell instance) = State instance
  /\ (State instance = "running" ->
      tview.Color (stateCell instance) = tcell.ColorGreen)
  /\ (State instance = "stopped" ->
      tview.Color (stateCell instance) = tcell.ColorRed)
  /\ (State instance = "pending" \/ State instance = "stopping" ->
      tview.Color (stateCell instance) = tcell.ColorYellow)
  /\ (State instance <> "running" -> State instance <> "stopped" ->
      State instance <> "pending" -> State instance <> "stopping" ->
      tview.Color (stateCell instance) = tview.PrimaryTextColor)
  /\ (forall other, State other = State instance ->
      stateCell other = stateCell instance).
Proof.
  split; [apply GetCell_SetCell |].
  unfold stateCell, types.InstanceStateNameRunning,
    types.InstanceStateNameStopped, types.InstanceStateNamePending,
    types.InstanceStateNameStopping.
  split; [| split; [| split; [| split; [| split]]]].
  - repeat match goal with |- context [if ?b then _ else _] => destruct b end;
      reflexivity.
  - intros ->. reflexivity.
  - intros ->. reflexivity.
  - intros [-> | ->]; reflexivity.
  - intros H1 H2 H3 H4.
    apply String.eqb_neq in H1, H2, H3, H4.
    now rewrite H1, H2, H3, H4.
  - intros other ->. reflexivity.
Qed.

Lemma stateCell_colour_witness :
  tview.Color
    (stateCell {| GlobalIP := ""; InstanceId := "i-0d4"; Name := "";
                  Platform := "None"; PrivateIp := ""; SecurityGroupId := "";
                  State := "shutting-down" |})
  = tview.PrimaryTextColor.
Proof.
  apply (proj1 (proj2 (proj2 (proj2 (proj2 (proj2
           (stateCell_colour 1
              {| GlobalIP := ""; InstanceId := "i-0d4"; Name := "";
                 Platform := "None"; PrivateIp := ""; SecurityGroupId := "";
                 State := "shutting-down" |}
              tview.NewTable)))))));
    simpl; discriminate.
Defined.

(** ** The dashboard *)

Section DashboardProperties.

Context {Service : Type}.
Variable DescribeInstances :
  Service -> (ec2.DescribeInstancesOutput + error) * Service.
Variable StartInstances :
  ec2.StartInstancesInput -> Service -> option error * Service.
Variable StopInstances :
  ec2.StopInstancesInput -> Service -> option error * Service.
Variable tableSelect : tview.Table -> tcell.EventKey -> nat.

Local Notation "'capture'" :=
  (inputCapture DescribeInstances StartInstances StopInstances).
Local Notation "'step1'" :=
  (step DescribeInstances StartInstances StopInstances tableSelect).
Local Notation "'runAll'" :=
  (run DescribeInstances StartInstances StopInstances tableSelect).

(** A successful refresh leaves the header row and writes one row per
    record under it. *)
Lemma refreshTable_success (t : tview.Table) (c c' : EC2Client Service)
    (instances : list Instance) :
  getInstances DescribeInstances c = (Ok instances, c') ->
  refreshTable DescribeInstances t c
  = (Ok tt, fillRows instances 0 (clearRows (tview.GetRowCount t - 1) t), c').
Proof.
  intros Hlist. unfold refreshTable. now rewrite Hlist.
Qed.

(** C3.  A refresh whose [list()] call fails, by an error or by a panic,
    fails the same way and hands back the table it was given: no row is
    cleared and no cell is written. *)
Theorem refreshTable_all_or_nothing (t : tview.Table)
    (c c' : EC2Client Service) (r : outcome (list Instance)) :
  getInstances DescribeInstances c = (r, c') ->
  isOk r = false ->
  refreshTable DescribeInstances t c = (discard r, t, c').
Proof.
  intros Hlist Hfail. unfold refreshTable. rewrite Hlist.
  destruct r; [discriminate | reflexivity | reflexivity].
Qed.

(** C8.  With the header row selected the key handler gives the event
    back as it came and leaves table, application and client as they
    were: no call is issued, for [s] and [t] as for any other key. *)
Theorem header_row_keys_ignored (w : World Service) (event : tcell.EventKey) :
  tview.GetSelection (table w) = 0 ->
  capture w event = (Ok event, w).
Proof.
  intros Hrow. unfold inputCapture. now rewrite Hrow.
Qed.

(** The handler changes the root only by putting up a modal. *)
Lemma inputCapture_root (w : World Service) (event : tcell.EventKey) :
  tview.root (app (snd (capture w event))) = tview.root (app w)
  \/ isModal (tview.root (app (snd (capture w event)))) = true.
Proof.
  unfold inputCapture, refreshTable.
  repeat match goal with
         | |- context [if ?b then _ else _] => destruct b
         | |- context [match tcell.key ?e with _ => _ end] =>
             destruct (tcell.key e)
         | |- context [startInstance ?f ?i ?c] =>
             destruct (startInstance f i c) as [[?|] ?]
         | |- context [stopInstance ?f ?i ?c] =>
             destruct (stopInstance f i c) as [[?|] ?]
         | |- context [getInstances ?f ?c] =>
             destruct (getInstances f c) as [[?|?|] ?]
         end; simpl; auto.
Qed.

(** Once the help line is off the screen no key brings it back. *)
Lemma step_keeps_help_off (w : World Service) (event : tcell.EventKey) :
  helpDisplayed w = false -> helpDisplayed (step1 w event) = false.
Proof.
  unfold helpDisplayed, step. intros Hoff.
  destruct (tview.status (app w)); [| assumption | assumption].
  destruct (tview.root (app w)) as [help| |text] eqn:Hroot; [discriminate | |].
  - destruct (tcell.key event); simpl; try (now rewrite Hroot);
      (destruct (inputCapture_root w event) as [Hsame | Hmodal];
       [ rewrite Hroot in Hsame | ];
       destruct (capture w event) as [[ev| |] w']; simpl in *;
       try (now rewrite Hsame);
       destruct (tview.root (app w')); try discriminate; reflexivity).
  - destruct (tcell.key event); simpl; try (now rewrite Hroot); reflexivity.
Qed.

Lemma run_keeps_help_off (events : list tcell.EventKey) :
  forall w : World Service,
    helpDisplayed w = false -> helpDisplayed (runAll events w) = false.
Proof.
  unfold run.
  induction events as [|event events IH]; intros w Hoff; simpl.
  - assumption.
  - apply IH. now apply step_keeps_help_off.
Qed.

(** C10.  Enter or Escape on a modal makes the bare table the root, not
    the layout with the help line, and no later key event puts the help
    line back on screen. *)
Theorem help_line_lost_after_modal (w : World Service) (text : string)
    (event : tcell.EventKey) (events : list tcell.EventKey) :
  tview.status (app w) = tview.Running ->
  tview.root (app w) = tview.RootModal text ->
  tcell.key event = tcell.KeyEnter \/ tcell.key event = tcell.KeyEscape ->
  tview.root (app (step1 w event)) = tview.RootTable
  /\ helpDisplayed (runAll events (step1 w event)) = false.
Proof.
  intros Hrun Hroot Hkey.
  assert (Hdone : tview.root (app (step1 w event)) = tview.RootTable).
  { unfold step. rewrite Hrun, Hroot. destruct Hkey as [-> | ->]; reflexivity. }
  split; [exact Hdone |].
  apply run_keeps_help_off. unfold helpDisplayed. now rewrite Hdone.
Qed.

(** While a modal is up a key reaches neither the table nor the provider:
    the modal stays, or is left by Enter or Escape, or Ctrl-C stops the
    application. *)
Lemma modal_blocks_table (w : World Service) (text : string)
    (event : tcell.EventKey) :
  tview.status (app w) = tview.Running ->
  tview.root (app w) = tview.RootModal text ->
  table (step1 w event) = table w
  /\ ec2Client (step1 w event) = ec2Client w
  /\ (step1 w event = w
      \/ app (step1 w event) = dismissModal (app w)
      \/ app (step1 w event) = tview.Stop (app w)).
Proof.
  intros Hrun Hroot. unfold step. rewrite Hrun, Hroot.
  destruct (tcell.key event); simpl; auto.
Qed.

(** C4, amended.  With an instance row selected, [s] and [t] always end
    with a modal carrying the confirmation or the error; [r] ends with a
    modal when the listing returns an error, the table being as before,
    and with no modal at all when the listing succeeds: the application is
    as it was and the table is redrawn.  A modal on screen keeps every key
    from the table and the provider until it is acknowledged. *)
Theorem outcomes_shown_in_modal (w : World Service) :
  (tview.GetSelection (table w) <> 0 ->
   (tview.root (app (snd (capture w (runeEvent "s"))))
    = tview.RootModal
        match fst (startInstance StartInstances
                     (tview.Text (tview.GetCell (tview.GetSelection (table w)) 1 (table w)))
                     (ec2Client w)) with
        | Some err => "Error starting instance: " ++ err
        | None =>
            "Starting instance: "
            ++ tview.Text (tview.GetCell (tview.GetSelection (table w)) 1 (table w))
        end)
   /\ (tview.root (app (snd (capture w (runeEvent "t"))))
       = tview.RootModal
           match fst (stopInstance StopInstances
                        (tview.Text (tview.GetCell (tview.GetSelection (table w)) 1 (table w)))
                        (ec2Client w)) with
           | Some err => "Error stopping instance: " ++ err
           | None =>
               "Stopping instance: "
               ++ tview.Text (tview.GetCell (tview.GetSelection (table w)) 1 (table w))
           end)
   /\ (forall err c,
         getInstances DescribeInstances (ec2Client w) = (Err err, c) ->
         capture w (runeEvent "r")
         = (Ok (runeEvent "r"),
            {| app := showMessage (app w) ("Error refreshing: " ++ err);
               table := table w; ec2Client := c |}))
   /\ (forall instances c,
         getInstances DescribeInstances (ec2Client w) = (Ok instances, c) ->
         capture w (runeEvent "r")
         = (Ok (runeEvent "r"),
            {| app := app w;
               table := fillRows instances 0
                          (clearRows (tview.GetRowCount (table w) - 1) (table w));
               ec2Client := c |})))
  /\ (forall text event,
        tview.status (app w) = tview.Running ->
        tview.root (app w) = tview.RootModal text ->
        table (step1 w event) = table w
        /\ ec2Client (step1 w event) = ec2Client w
        /\ (step1 w event = w
            \/ app (step1 w event) = dismissModal (app w)
            \/ app (step1 w event) = tview.Stop (app w))).
Proof.
  split; [| intros text event; apply modal_blocks_table].
  intros Hrow. apply Nat.eqb_neq in Hrow.
  unfold inputCapture. rewrite Hrow. cbn [runeEvent tcell.key tcell.rune].
  repeat split.
  - change (N.eqb (runeOf "s") (runeOf "s")) with true. cbv iota.
    destruct (startInstance _ _ _) as [[err|] c]; reflexivity.
  - change (N.eqb (runeOf "t") (runeOf "s")) with false.
    change (N.eqb (runeOf "t") (runeOf "t")) with true. cbv iota.
    destruct (stopInstance _ _ _) as [[err|] c]; reflexivity.
  - intros err c Hlist.
    change (N.eqb (runeOf "r") (runeOf "s")) with false.
    change (N.eqb (runeOf "r") (runeOf "t")) with false.
    change (N.eqb (runeOf "r") (runeOf "q")) with false.
    change (N.eqb (runeOf "r") (runeOf "r")) with true. cbv iota.
    unfold refreshTable. now rewrite Hlist.
  - intros instances c Hlist.
    change (N.eqb (runeOf "r") (runeOf "s")) with false.
    change (N.eqb (runeOf "r") (runeOf "t")) with false.
    change (N.eqb (runeOf "r") (runeOf "q")) with false.
    change (N.eqb (runeOf "r") (runeOf "r")) with true. cbv iota.
    unfold refreshTable. now rewrite Hlist.
Qed.

End DashboardProperties.

Lemma refreshTable_all_or_nothing_witness :
  refreshTable Sample.describeFails Sample.renderedTable Sample.freshClient
  = (Err "RequestExpired", Sample.renderedTable,
     {| client := 1; issued := [CallDescribeInstances] |}).
Proof.
  apply (refreshTable_all_or_nothing Sample.describeFails
           Sample.renderedTable Sample.freshClient
           {| client := 1; issued := [CallDescribeInstances] |}
           (Err "RequestExpired")); reflexivity.
Defined.

Lemma header_row_keys_ignored_witness :
  inputCapture Sample.describeOk Sample.startOk Sample.stopFails
    (Sample.world 0) (runeEvent "s")
  = (Ok (runeEvent "s"), Sample.world 0).
Proof.
  apply (header_row_keys_ignored Sample.describeOk Sample.startOk
           Sample.stopFails (Sample.world 0) (runeEvent "s")).
  reflexivity.
Defined.

Lemma help_line_lost_after_modal_witness :
  tview.root
    (app (step Sample.describeOk Sample.startOk Sample.stopFails
            Sample.keepSelection Sample.modalWorld (keyEvent tcell.KeyEnter)))
  = tview.RootTable
  /\ helpDisplayed
       (run Sample.describeOk Sample.startOk Sample.stopFails
          Sample.keepSelection
          [runeEvent "r"; runeEvent "t"; keyEvent tcell.KeyEscape]
          (step Sample.describeOk Sample.startOk Sample.stopFails
             Sample.keepSelection Sample.modalWorld (keyEvent tcell.KeyEnter)))
     = false.
Proof.
  apply (help_line_lost_after_modal Sample.describeOk Sample.startOk
           Sample.stopFails Sample.keepSelection Sample.modalWorld
           "Starting instance: i-0a1" (keyEvent tcell.KeyEnter)
           [runeEvent "r"; runeEvent "t"; keyEvent tcell.KeyEscape]).
  - reflexivity.
  - reflexivity.
  - left. reflexivity.
Defined.

(** C4, as stated, fails: with the first instance row selected and a
    provider that answers, [r] refreshes the table and puts up no modal;
    the root is still the start-up layout. *)
Lemma refresh_success_without_modal :
  tview.GetSelection (table (Sample.world 1)) = 1
  /\ isOk (fst (getInstances Sample.describeOk (ec2Client (Sample.world 1))))
     = true
  /\ tview.root
       (app (snd (inputCapture Sample.describeOk Sample.startOk
                    Sample.stopFails (Sample.world 1) (runeEvent "r"))))
     = tview.RootFlex (helpText "default")
  /\ isModal
       (tview.root
          (app (step Sample.describeOk Sample.startOk Sample.stopFails
                  Sample.keepSelection (Sample.world 1) (runeEvent "r"))))
     = false.
Proof. repeat split. Qed.

Lemma outcomes_shown_in_modal_witness :
  tview.root
    (app (snd (inputCapture Sample.describeOk Sample.startOk Sample.stopFails
                 (Sample.world 1) (runeEvent "s"))))
  = tview.RootModal "Starting instance: i-0a1".
Proof.
  apply (proj1 (proj1 (outcomes_shown_in_modal Sample.describeOk
                         Sample.startOk Sample.stopFails Sample.keepSelection
                         (Sample.world 1))
                  (fun H : tview.GetSelection (table (Sample.world 1)) = 0 =>
                     Nat.neq_succ_0 0 H))).
Defined.

(** The dashboard starts under the layout with the help line. *)
Lemma main_shows_help {Config Service : Type}
    (resolve : config.LoadOptions -> Config + error)
    (NewFromConfig : Config -> Service)
    (Describe : Service -> (ec2.DescribeInstancesOutput + error) * Service)
    (profile : string) (w : World Service) :
  main resolve NewFromConfig Describe profile = Ok w ->
  app w = {| tview.root := tview.RootFlex (helpText profile);
             tview.status := tview.Running |}.
Proof.
  unfold main. destruct (NewEC2Client _ _ _) as [c|err]; [|discriminate].
  destruct (refreshTable _ _ _) as [[[u|e|] t] c']; simpl;
    intros Heq; try discriminate.
  injection Heq as <-. reflexivity.
Qed.

Example main_sample :
  exists w,
    main Sample.resolveOk Sample.newService Sample.describeOk "default" = Ok w
    /\ table w = Sample.renderedTable
    /\ helpDisplayed w = true.
Proof. eexists. repeat split. Qed.

(** * Further properties of the code *)

(** ** Rows of the table widget *)

Lemma growTo_within {A : Type} (n : nat) (d : A) (l : list A) :
  n < List.length l -> tview.growTo n d l = l.
Proof.
  intros Hn. unfold tview.growTo.
  replace (S n - List.length l) with 0 by lia.
  apply app_nil_r.
Qed.

Lemma growTo_next {A : Type} (d : A) (l : list A) :
  tview.growTo (List.length l) d l = (l ++ [d])%list.
Proof.
  unfold tview.growTo.
  replace (S (List.length l) - List.length l) with 1 by lia.
  reflexivity.
Qed.

Lemma replaceNth_middle {A : Type} (y x : A) (pre post : list A) :
  tview.replaceNth (List.length pre) y (pre ++ x :: post)
  = (pre ++ y :: post)%list.
Proof.
  induction pre as [|p pre IH]; simpl.
  - reflexivity.
  - now rewrite IH.
Qed.

(** Writing column 0 of the row just under the table adds a row. *)
Lemma SetCell_new_row (cell : tview.TableCell) (t : tview.Table) :
  tview.cells (tview.SetCell (List.length (tview.cells t)) 0 cell t)
  = (tview.cells t ++ [[cell]])%list.
Proof.
  unfold tview.SetCell. cbn [tview.withCells tview.cells].
  rewrite growTo_next, nth_middle.
  apply replaceNth_middle.
Qed.

(** Writing the column just right of the last row's end extends it. *)
Lemma SetCell_extend_row (cell : tview.TableCell) (t : tview.Table)
    (pre : list (list tview.TableCell)) (line : list tview.TableCell) :
  tview.cells t = (pre ++ [line])%list ->
  tview.cells (tview.SetCell (List.length pre) (List.length line) cell t)
  = (pre ++ [line ++ [cell]])%list.
Proof.
  intros Hcells. unfold tview.SetCell. cbn [tview.withCells tview.cells].
  rewrite Hcells.
  rewrite (growTo_within (List.length pre) [] (pre ++ [line]))
    by (rewrite length_app; simpl; lia).
  rewrite nth_middle, growTo_next.
  rewrite (replaceNth_middle cell tview.emptyCell line []).
  apply replaceNth_middle.
Qed.

(** One iteration of the filling loop, entered with the row index equal to
    the number of rows, appends the rendering of the record. *)
Lemma setRow_appends (instance : Instance) (t : tview.Table) :
  tview.cells (setRow (List.length (tview.cells t)) instance t)
  = (tview.cells t ++ [renderRow instance])%list.
Proof.
  unfold setRow, renderRow.
  set (n := List.length (tview.cells t)).
  pose proof (SetCell_new_row (tview.NewTableCell (GlobalIP instance)) t) as H0.
  fold n in H0.
  pose proof (SetCell_extend_row (tview.NewTableCell (InstanceId instance))
                _ _ _ H0) as H1.
  pose proof (SetCell_extend_row (tview.NewTableCell (Name instance))
                _ _ _ H1) as H2.
  pose proof (SetCell_extend_row (tview.NewTableCell (Platform instance))
                _ _ _ H2) as H3.
  pose proof (SetCell_extend_row (tview.NewTableCell (PrivateIp instance))
                _ _ _ H3) as H4.
  pose proof (SetCell_extend_row (tview.NewTableCell (SecurityGroupId instance))
                _ _ _ H4) as H5.
  pose proof (SetCell_extend_row (stateCell instance) _ _ _ H5) as H6.
  exact H6.
Qed.

Lemma fillRows_appends (instances : list Instance) :
  forall (i : nat) (t : tview.Table),
    List.length (tview.cells t) = i + 1 ->
    tview.cells (fillRows instances i t)
    = (tview.cells t ++ map renderRow instances)%list.
Proof.
  induction instances as [|instance rest IH]; intros i t Hlen; simpl.
  - now rewrite app_nil_r.
  - rewrite IH.
    + rewrite <- Hlen, setRow_appends, <- app_assoc. reflexivity.
    + rewrite <- Hlen, setRow_appends, length_app. simpl. lia.
Qed.

Lemma firstn_1_removeNth {A : Type} (n : nat) (l : list A) :
  firstn 1 (tview.removeNth (S n) l) = firstn 1 l.
Proof. destruct l; reflexivity. Qed.

Lemma skipn_removeNth {A : Type} (l : list A) :
  forall n, skipn n (tview.removeNth n l) = skipn (S n) l.
Proof.
  induction l as [|a l IH]; intros [|n]; simpl; auto.
Qed.

(** The clearing loop entered at [row] removes the rows [1..row]. *)
Lemma clearRows_cells (row : nat) :
  forall t : tview.Table,
    tview.cells (clearRows row t)
    = (firstn 1 (tview.cells t) ++ skipn (S row) (tview.cells t))%list.
Proof.
  induction row as [|row IH]; intros t.
  - simpl. destruct (tview.cells t); reflexivity.
  - cbn [clearRows]. rewrite IH. unfold tview.RemoveRow.
    cbn [tview.withCells tview.cells].
    rewrite firstn_1_removeNth. f_equal.
    apply skipn_removeNth.
Qed.

Lemma clearRows_selection (row : nat) :
  forall t : tview.Table,
    tview.selectedRow (clearRows row t) = tview.selectedRow t.
Proof.
  induction row as [|row IH]; intros t; simpl.
  - reflexivity.
  - now rewrite IH.
Qed.

Lemma fillRows_selection (instances : list Instance) :
  forall (i : nat) (t : tview.Table),
    tview.selectedRow (fillRows instances i t) = tview.selectedRow t.
Proof.
  induction instances as [|instance rest IH]; intros i t; simpl.
  - reflexivity.
  - now rewrite IH.
Qed.

(** What a successful refresh leaves in a table that has a header row. *)
Lemma refresh_cells (t : tview.Table) (header : list tview.TableCell)
    (old : list (list tview.TableCell)) (instances : list Instance) :
  tview.cells t = header :: old ->
  tview.cells (fillRows instances 0 (clearRows (tview.GetRowCount t - 1) t))
  = header :: map renderRow instances.
Proof.
  intros Hcells.
  assert (Hclear :
    tview.cells (clearRows (tview.GetRowCount t - 1) t) = [header]).
  { rewrite clearRows_cells. unfold tview.GetRowCount. rewrite Hcells.
    cbn [List.length firstn]. rewrite Nat.sub_1_r. cbn [Nat.pred].
    change (skipn (S (List.length old)) (header :: old))
      with (skipn (List.length old) old).
    now rewrite skipn_all. }
  rewrite fillRows_appends; rewrite Hclear; reflexivity.
Qed.

(** ** More on the inventory client *)

Lemma mapResponse_never_errs (result : ec2.DescribeInstancesOutput) (e : error) :
  mapResponse result <> Err e.
Proof.
  unfold mapResponse.
  destruct (forallb instanceDefined
              (List.concat (map types.Instances (ec2.Reservations result))))
    eqn:Hdef.
  - destruct (reservationsLoop_defined _ [] Hdef) as [recs [Hrun _]].
    rewrite Hrun. discriminate.
  - rewrite (reservationsLoop_undefined _ [] Hdef). discriminate.
Qed.

(** X1.  [getInstances] returns an error exactly when the provider's call
    does, and then the provider's error as it is, without wrapping; the
    mapping of a received response never produces an error of its own.
    Whatever the outcome, exactly one describe call has been issued. *)
Theorem getInstances_error_is_the_providers {Service : Type}
    (Describe : Service -> (ec2.DescribeInstancesOutput + error) * Service)
    (c : EC2Client Service) :
  (forall e, fst (getInstances Describe c) = Err e
             <-> fst (Describe (client c)) = inr e)
  /\ issued (snd (getInstances Describe c))
     = (issued c ++ [CallDescribeInstances])%list
  /\ client (snd (getInstances Describe c)) = snd (Describe (client c)).
Proof.
  unfold getInstances.
  destruct (Describe (client c)) as [[result|err] svc]; simpl.
  - repeat split; try discriminate.
    intros Herr. now apply mapResponse_never_errs in Herr.
  - repeat split; intros Heq; injection Heq as ->; reflexivity.
Qed.

(** X2.  The platform of a listed record is never empty: it is the literal
    [None] when the provider reports no platform and the provider's label
    otherwise. *)
Theorem platform_never_empty (instance : types.Instance) :
  instanceDefined instance = true ->
  exists r,
    convertInstance instance = Ok r
    /\ Platform r <> ""
    /\ (types.Platform instance = "" -> Platform r = "None")
    /\ (types.Platform instance <> "" -> Platform r = types.Platform instance).
Proof.
  intros Hdef.
  destruct (convertInstance_defined _ Hdef)
    as [ids [id [st [_ [_ [_ Hrun]]]]]].
  eexists. split; [exact Hrun |]. simpl. unfold platformOf.
  destruct (String.eqb_spec (types.Platform instance) "") as [Hempty|Hset].
  - split; [discriminate | split].
    + intros _. reflexivity.
    + intros Hset. contradiction.
  - split; [assumption | split].
    + intros Hempty. contradiction.
    + intros _. reflexivity.
Qed.

Lemma platform_never_empty_witness :
  exists r,
    convertInstance Sample.db1 = Ok r
    /\ Platform r <> ""
    /\ (types.Platform Sample.db1 = "" -> Platform r = "None")
    /\ (types.Platform Sample.db1 <> "" -> Platform r = "windows").
Proof.
  apply (platform_never_empty Sample.db1). reflexivity.
Defined.

(** X3.  A missing address renders as the empty string: the public one
    when the provider sends none, the private one when the instance has no
    network interface or its first interface has no private address. *)
Theorem missing_addresses_render_empty (instance : types.Instance) :
  instanceDefined instance = true ->
  exists r,
    convertInstance instance = Ok r
    /\ (types.PublicIpAddress instance = None -> GlobalIP r = "")
    /\ (types.NetworkInterfaces instance = [] -> PrivateIp r = "")
    /\ (forall ni rest,
          types.NetworkInterfaces instance = ni :: rest ->
          types.PrivateIpAddress ni = None -> PrivateIp r = "").
Proof.
  intros Hdef.
  destruct (convertInstance_defined _ Hdef)
    as [ids [id [st [_ [_ [_ Hrun]]]]]].
  eexists. split; [exact Hrun |]. simpl.
  unfold publicIPOf, privateIPOf. repeat split.
  - intros ->. reflexivity.
  - intros ->. reflexivity.
  - intros ni rest -> ->. reflexivity.
Qed.

Lemma missing_addresses_render_empty_witness :
  exists r,
    convertInstance Sample.db1 = Ok r
    /\ (types.PublicIpAddress Sample.db1 = None -> GlobalIP r = "")
    /\ (types.NetworkInterfaces Sample.db1 = [] -> PrivateIp r = "")
    /\ (forall ni rest,
          types.NetworkInterfaces Sample.db1 = ni :: rest ->
          types.PrivateIpAddress ni = None -> PrivateIp r = "").
Proof.
  apply (missing_addresses_render_empty Sample.db1). reflexivity.
Defined.

(** X4.  The tag scan stops at the first tag keyed [Name]: what follows
    that tag, well formed or not, has no influence on the outcome. *)
Theorem tags_after_Name_never_read (pre rest rest' : list types.Tag)
    (tag : types.Tag) :
  types.Key tag = Some "Name" ->
  scanNameTag (pre ++ tag :: rest) = scanNameTag (pre ++ tag :: rest').
Proof.
  intros Hkey.
  induction pre as [|t pre IH]; simpl.
  - now rewrite Hkey.
  - destruct (types.Key t) as [k|]; simpl; [|reflexivity].
    destruct (k =? "Name"); [reflexivity | exact IH].
Qed.

Lemma tags_after_Name_never_read_witness :
  scanNameTag
    ([Sample.tag "other" "x"] ++ Sample.tag "Name" "web-1"
       :: [{| types.Key := None; types.Value := None |}])
  = scanNameTag
      ([Sample.tag "other" "x"] ++ Sample.tag "Name" "web-1" :: []).
Proof.
  apply (tags_after_Name_never_read [Sample.tag "other" "x"]
           [{| types.Key := None; types.Value := None |}] []
           (Sample.tag "Name" "web-1")).
  reflexivity.
Defined.

(** X5.  A response without instance records, with no reservation or with
    empty reservations only, is listed as the empty sequence. *)
Theorem empty_response_lists_nothing (result : ec2.DescribeInstancesOutput) :
  instanceCount result = 0 -> mapResponse result = Ok [].
Proof.
  intros Hcount. rewrite <- length_flatten in Hcount.
  apply length_zero_iff_nil in Hcount.
  assert (Hdef : forallb instanceDefined
                   (List.concat (map types.Instances (ec2.Reservations result)))
                 = true).
  { fold (flatten result). now rewrite Hcount. }
  destruct (reservationsLoop_defined _ [] Hdef) as [recs [Hrun Hrecs]].
  fold (flatten result) in Hrecs. rewrite Hcount in Hrecs.
  inversion Hrecs; subst. exact Hrun.
Qed.

Lemma empty_response_lists_nothing_witness :
  mapResponse
    {| ec2.Reservations :=
         [{| types.Instances := [] |}; {| types.Instances := [] |}] |}
  = Ok [].
Proof.
  apply (empty_response_lists_nothing
           {| ec2.Reservations :=
                [{| types.Instances := [] |}; {| types.Instances := [] |}] |}).
  reflexivity.
Defined.

(** ** More on [joinStrings] *)

Lemma length_append (a b : string) :
  String.length (a ++ b) = String.length a + String.length b.
Proof.
  induction a as [|ch a IH]; simpl.
  - reflexivity.
  - now rewrite IH.
Qed.

Lemma concat_cons (sep x : string) (y : string) (rest : list string) :
  String.concat sep (x :: y :: rest) = x ++ sep ++ String.concat sep (y :: rest).
Proof. reflexivity. Qed.

(** X6.  Joining a concatenation of two non-empty slices is joining each
    and putting one separator between the results. *)
Theorem joinStrings_app (a b : list string) (sep : string) :
  a <> [] -> b <> [] ->
  joinStrings (a ++ b) sep = joinStrings a sep ++ sep ++ joinStrings b sep.
Proof.
  intros Ha Hb. rewrite !joinStrings_concat.
  destruct b as [|y b]; [contradiction | clear Hb].
  induction a as [|x a IH]; [contradiction |].
  destruct a as [|x' a].
  - reflexivity.
  - change ((x :: x' :: a) ++ y :: b)%list with (x :: (x' :: a) ++ y :: b)%list.
    change ((x' :: a) ++ y :: b)%list with (x' :: (a ++ y :: b))%list.
    rewrite concat_cons.
    change (x' :: (a ++ y :: b))%list with ((x' :: a) ++ y :: b)%list.
    rewrite IH by discriminate.
    rewrite concat_cons, !append_assoc. reflexivity.
Qed.

Lemma joinStrings_app_witness :
  joinStrings (["sg-1"; "sg-2"] ++ ["sg-3"]) ", "
  = joinStrings ["sg-1"; "sg-2"] ", " ++ ", " ++ joinStrings ["sg-3"] ", ".
Proof.
  apply (joinStrings_app ["sg-1"; "sg-2"] ["sg-3"] ", "); discriminate.
Defined.

(** X7.  The joined string is as long as its parts together with one
    separator less than there are parts: no leading and no trailing
    separator is written. *)
Theorem joinStrings_length (slice : list string) (sep : string) :
  String.length (joinStrings slice sep)
  = list_sum (map String.length slice)
    + (List.length slice - 1) * String.length sep.
Proof.
  rewrite joinStrings_concat.
  induction slice as [|x rest IH].
  - reflexivity.
  - destruct rest as [|y rest].
    + simpl. lia.
    + rewrite concat_cons, !length_append, IH.
      cbn [map List.length Nat.sub Nat.mul]. rewrite Nat.sub_0_r.
      unfold list_sum. cbn [fold_right]. lia.
Qed.

(** ** More on the dashboard *)

Section MoreDashboardProperties.

Context {Service : Type}.
Variable DescribeInstances :
  Service -> (ec2.DescribeInstancesOutput + error) * Service.
Variable StartInstances :
  ec2.StartInstancesInput -> Service -> option error * Service.
Variable StopInstances :
  ec2.StopInstancesInput -> Service -> option error * Service.
Variable tableSelect : tview.Table -> tcell.EventKey -> nat.

Local Notation "'capture'" :=
  (inputCapture DescribeInstances StartInstances StopInstances).
Local Notation "'step1'" :=
  (step DescribeInstances StartInstances StopInstances tableSelect).
Local Notation "'runAll'" :=
  (run DescribeInstances StartInstances StopInstances tableSelect).

(** Every path through the key handler, with the provider's answers. *)
Ltac handler_cases :=
  unfold inputCapture, refreshTable, startInstance, stopInstance, getInstances;
  repeat match goal with
         | |- context [if ?b then _ else _] => destruct b eqn:?
         | |- context [match tcell.key ?e with _ => _ end] =>
             destruct (tcell.key e) eqn:?
         | |- context [StartInstances ?i ?s] =>
             destruct (StartInstances i s) as [[?|] ?] eqn:?
         | |- context [StopInstances ?i ?s] =>
             destruct (StopInstances i s) as [[?|] ?] eqn:?
         | |- context [DescribeInstances ?s] =>
             destruct (DescribeInstances s) as [[?|?] ?] eqn:?
         | |- context [mapResponse ?r] =>
             destruct (mapResponse r) as [?|?|] eqn:?
         end;
  cbn [fst snd app table ec2Client issued client].

(** X8.  A successful refresh of a table with a header row keeps that row,
    drops every old row and writes one row per listed record, in listing
    order; the table then has one row more than there are records, and the
    selection is where it was. *)
Theorem refreshTable_rows (t : tview.Table) (c c' : EC2Client Service)
    (instances : list Instance) (header : list tview.TableCell)
    (old : list (list tview.TableCell)) :
  getInstances DescribeInstances c = (Ok instances, c') ->
  tview.cells t = header :: old ->
  exists t',
    refreshTable DescribeInstances t c = (Ok tt, t', c')
    /\ tview.cells t' = header :: map renderRow instances
    /\ tview.GetRowCount t' = S (List.length instances)
    /\ tview.GetSelection t' = tview.GetSelection t.
Proof.
  intros Hlist Hcells. unfold refreshTable. rewrite Hlist.
  eexists. split; [reflexivity |].
  assert (Hrows := refresh_cells t header old instances Hcells).
  split; [exact Hrows | split].
  - unfold tview.GetRowCount in *. rewrite Hrows. simpl.
    now rewrite length_map.
  - unfold tview.GetSelection.
    now rewrite fillRows_selection, clearRows_selection.
Qed.

(** The identifier the handler reads in a rendered table. *)
Lemma rendered_identifier (t : tview.Table) (header : list tview.TableCell)
    (instances : list Instance) (k : nat) (instance : Instance) :
  tview.cells t = header :: map renderRow instances ->
  nth_error instances k = Some instance ->
  tview.Text (tview.GetCell (S k) 1 t) = InstanceId instance.
Proof.
  intros Hcells Hk. unfold tview.GetCell. rewrite Hcells.
  cbn [nth].
  rewrite (nth_error_nth (map renderRow instances) k []
             (map_nth_error renderRow k instances Hk)).
  reflexivity.
Qed.

(** X9.  In a table rendered from a listing, [s] on the row of the k-th
    record issues one start call for exactly that record's identifier, and
    [t] one stop call for it. *)
Theorem keys_target_selected_instance (w : World Service)
    (header : list tview.TableCell) (instances : list Instance)
    (k : nat) (instance : Instance) :
  tview.cells (table w) = header :: map renderRow instances ->
  nth_error instances k = Some instance ->
  tview.GetSelection (table w) = S k ->
  issued (ec2Client (snd (capture w (runeEvent "s"))))
  = (issued (ec2Client w) ++ [CallStartInstances [InstanceId instance]])%list
  /\ issued (ec2Client (snd (capture w (runeEvent "t"))))
     = (issued (ec2Client w) ++ [CallStopInstances [InstanceId instance]])%list.
Proof.
  intros Hcells Hk Hrow.
  unfold inputCapture. rewrite Hrow.
  rewrite (rendered_identifier _ _ _ _ _ Hcells Hk).
  cbn [Nat.eqb runeEvent tcell.key tcell.rune].
  change (N.eqb (runeOf "s") (runeOf "s")) with true.
  change (N.eqb (runeOf "t") (runeOf "s")) with false.
  change (N.eqb (runeOf "t") (runeOf "t")) with true. cbv iota.
  unfold startInstance, stopInstance. split.
  - destruct (StartInstances _ _) as [[err|] svc]; reflexivity.
  - destruct (StopInstances _ _) as [[err|] svc]; reflexivity.
Qed.

(** X10.  A key that is not one of the runes [s], [t], [q], [r] is handed
    back by the handler with nothing done: no call, no modal, no change of
    the table. *)
Theorem other_keys_passed_through (w : World Service) (event : tcell.EventKey) :
  tcell.key event <> tcell.KeyRune \/ isActionRune (tcell.rune event) = false ->
  capture w event = (Ok event, w).
Proof.
  intros Hother. unfold inputCapture.
  destruct (tview.GetSelection (table w) =? 0)%nat; [reflexivity |].
  destruct Hother as [Hkey | Hrune].
  - destruct (tcell.key event); try reflexivity. contradiction.
  - unfold isActionRune in Hrune.
    apply orb_false_iff in Hrune as [Hrune Hr].
    apply orb_false_iff in Hrune as [Hrune Hq].
    apply orb_false_iff in Hrune as [Hs Ht].
    rewrite Hs, Ht, Hq, Hr.
    destruct (tcell.key event); reflexivity.
Qed.

(** X11.  Starting or stopping never touches the table, whether the call
    succeeds or fails: the rows shown, their power states included, stay as
    they were until the next refresh; the application keeps running and
    exactly one call, for the identifier in column 1 of the selected row,
    has been issued. *)
Theorem start_stop_leave_table (w : World Service) :
  tview.GetSelection (table w) <> 0 ->
  (table (snd (capture w (runeEvent "s"))) = table w
   /\ tview.status (app (snd (capture w (runeEvent "s"))))
      = tview.status (app w)
   /\ issued (ec2Client (snd (capture w (runeEvent "s"))))
      = (issued (ec2Client w)
         ++ [CallStartInstances
               [tview.Text (tview.GetCell (tview.GetSelection (table w)) 1
                              (table w))]])%list)
  /\ (table (snd (capture w (runeEvent "t"))) = table w
      /\ tview.status (app (snd (capture w (runeEvent "t"))))
         = tview.status (app w)
      /\ issued (ec2Client (snd (capture w (runeEvent "t"))))
         = (issued (ec2Client w)
            ++ [CallStopInstances
                  [tview.Text (tview.GetCell (tview.GetSelection (table w)) 1
                                 (table w))]])%list).
Proof.
  intros Hrow. apply Nat.eqb_neq in Hrow.
  unfold inputCapture. rewrite Hrow.
  cbn [runeEvent tcell.key tcell.rune].
  change (N.eqb (runeOf "s") (runeOf "s")) with true.
  change (N.eqb (runeOf "t") (runeOf "s")) with false.
  change (N.eqb (runeOf "t") (runeOf "t")) with true. cbv iota.
  unfold startInstance, stopInstance. split.
  - destruct (StartInstances _ _) as [[err|] svc]; repeat split.
  - destruct (StopInstances _ _) as [[err|] svc]; repeat split.
Qed.

(** X12.  The handler never swallows or rewrites a key: it returns the
    event it was given, unless the refresh it ran panicked. *)
Theorem handler_returns_its_event (w : World Service) (event : tcell.EventKey) :
  fst (capture w event) = Ok event
  \/ (fst (capture w event) = Panic
      /\ tcell.key event = tcell.KeyRune
      /\ tcell.rune event = runeOf "r"
      /\ fst (getInstances DescribeInstances (ec2Client w)) = Panic).
Proof.
  destruct (N.eqb_spec (tcell.rune event) (runeOf "r")) as [Hr | Hr].
  - handler_cases; auto 10.
  - left. handler_cases; try reflexivity.
    all: match goal with H : N.eqb _ (runeOf "r") = true |- _ =>
           apply N.eqb_eq in H; contradiction
         end.
Qed.

(** What the handler may have added to the calls issued. *)
Lemma capture_issues_at_most_one (w : World Service) (event : tcell.EventKey) :
  exists calls,
    issued (ec2Client (snd (capture w event)))
    = (issued (ec2Client w) ++ calls)%list
    /\ List.length calls <= 1.
Proof.
  handler_cases;
    first [ exists []; rewrite app_nil_r; split; [reflexivity | simpl; lia]
          | eexists [_]; split; [reflexivity | simpl; lia] ].
Qed.

(** One key event issues at most one provider call, whatever the state
    of the dashboard. *)
Lemma step_issues_at_most_one (w : World Service) (event : tcell.EventKey) :
  exists calls,
    issued (ec2Client (step1 w event)) = (issued (ec2Client w) ++ calls)%list
    /\ List.length calls <= 1.
Proof.
  assert (Hnone : exists calls,
             issued (ec2Client w) = (issued (ec2Client w) ++ calls)%list
             /\ List.length calls <= 1).
  { exists []. rewrite app_nil_r. split; [reflexivity | simpl; lia]. }
  pose proof (capture_issues_at_most_one w event) as Hcap.
  unfold step.
  destruct (tview.status (app w)); [| exact Hnone | exact Hnone].
  destruct (tcell.key event), (tview.root (app w)); try exact Hnone;
    destruct (capture w event) as [[ev| |] w']; exact Hcap.
Qed.

(** X13.  The calls issued only grow, and by at most one call per key
    event: after any sequence of keys the calls issued before are still
    there, in order, followed by no more new calls than keys pressed. *)
Theorem calls_bounded_by_keys (events : list tcell.EventKey) :
  forall w : World Service,
    exists calls,
      issued (ec2Client (runAll events w))
      = (issued (ec2Client w) ++ calls)%list
      /\ List.length calls <= List.length events.
Proof.
  unfold run.
  induction events as [|event events IH]; intros w; simpl.
  - exists []. rewrite app_nil_r. split; [reflexivity | simpl; lia].
  - destruct (step_issues_at_most_one w event) as [first [Hfirst Hone]].
    destruct (IH (step1 w event)) as [more [Hmore Hlen]].
    exists (first ++ more)%list. rewrite Hmore, Hfirst, <- app_assoc.
    split; [reflexivity | rewrite length_app; lia].
Qed.

(** A stopped or aborted application takes no further event. *)
Lemma run_not_running (events : list tcell.EventKey) (w : World Service) :
  tview.status (app w) <> tview.Running -> runAll events w = w.
Proof.
  intros Hstatus. unfold run.
  induction events as [|event events IH]; simpl.
  - reflexivity.
  - replace (step1 w event) with w; [exact IH |].
    unfold step. destruct (tview.status (app w)); [contradiction | |];
      reflexivity.
Qed.

(** X14.  With the table focused on an instance row, [q] stops the
    application without a provider call and without touching the rows,
    and after that no key event changes anything or reaches the
    provider. *)
Theorem quit_stops_everything (w : World Service)
    (events : list tcell.EventKey) :
  tableFocused w = true ->
  tview.GetSelection (table w) <> 0 ->
  tview.status (app (step1 w (runeEvent "q"))) = tview.Stopped
  /\ ec2Client (step1 w (runeEvent "q")) = ec2Client w
  /\ tview.cells (table (step1 w (runeEvent "q"))) = tview.cells (table w)
  /\ runAll events (step1 w (runeEvent "q")) = step1 w (runeEvent "q").
Proof.
  intros Hfocus Hrow. apply Nat.eqb_neq in Hrow.
  assert (Hstep : step1 w (runeEvent "q")
                  = {| app := tview.Stop (app w);
                       table := tview.Select
                                  (tableSelect (table w) (runeEvent "q"))
                                  (table w);
                       ec2Client := ec2Client w |}).
  { unfold tableFocused in Hfocus. unfold step, inputCapture.
    destruct (tview.status (app w)); try discriminate.
    rewrite Hrow. cbn [runeEvent tcell.key tcell.rune].
    change (N.eqb (runeOf "q") (runeOf "s")) with false.
    change (N.eqb (runeOf "q") (runeOf "t")) with false.
    change (N.eqb (runeOf "q") (runeOf "q")) with true. cbv iota.
    destruct (tview.root (app w)); try discriminate; reflexivity. }
  rewrite Hstep. repeat split.
  apply run_not_running. simpl. discriminate.
Qed.

(** The handler leaves the header row alone. *)
Lemma capture_keeps_header (w : World Service) (event : tcell.EventKey)
    (header : list tview.TableCell) (old : list (list tview.TableCell)) :
  tview.cells (table w) = header :: old ->
  exists old',
    tview.cells (table (snd (capture w event))) = header :: old'.
Proof.
  intros Hcells.
  handler_cases; try (exists old; exact Hcells).
  eexists. apply (refresh_cells _ _ _ _ Hcells).
Qed.

Lemma step_keeps_header (w : World Service) (event : tcell.EventKey)
    (header : list tview.TableCell) (old : list (list tview.TableCell)) :
  tview.cells (table w) = header :: old ->
  exists old', tview.cells (table (step1 w event)) = header :: old'.
Proof.
  intros Hcells.
  pose proof (capture_keeps_header w event header old Hcells) as Hcap.
  assert (Hsame : exists old', tview.cells (table w) = header :: old')
    by (exists old; exact Hcells).
  unfold step.
  destruct (tview.status (app w)); [| exact Hsame | exact Hsame].
  destruct (tcell.key event), (tview.root (app w)); try exact Hsame;
    destruct (capture w event) as [[ev| |] w']; exact Hcap.
Qed.

(** X15.  No sequence of key events alters or removes the header row:
    whatever is pressed, row 0 of the table is the row it was. *)
Theorem header_row_preserved (events : list tcell.EventKey) :
  forall (w : World Service) (header : list tview.TableCell)
         (old : list (list tview.TableCell)),
    tview.cells (table w) = header :: old ->
    exists old', tview.cells (table (runAll events w)) = header :: old'.
Proof.
  unfold run.
  induction events as [|event events IH]; intros w header old Hcells; simpl.
  - exists old. exact Hcells.
  - destruct (step_keeps_header w event header old Hcells) as [old' Hstep].
    exact (IH _ header old' Hstep).
Qed.

End MoreDashboardProperties.

Lemma refreshTable_rows_witness :
  exists t',
    refreshTable Sample.describeOk Sample.renderedTable Sample.freshClient
    = (Ok tt, t', {| client := 1; issued := [CallDescribeInstances] |})
    /\ tview.cells t' = headerRow :: map renderRow sampleRecords
    /\ tview.GetRowCount t' = 4
    /\ tview.GetSelection t' = 0.
Proof.
  apply (refreshTable_rows Sample.describeOk Sample.renderedTable
           Sample.freshClient
           {| client := 1; issued := [CallDescribeInstances] |}
           sampleRecords headerRow (map renderRow sampleRecords));
    reflexivity.
Defined.

Lemma keys_target_selected_instance_witness :
  issued (ec2Client (snd (inputCapture Sample.describeOk Sample.startOk
                            Sample.stopFails (Sample.world 2) (runeEvent "s"))))
  = [CallStartInstances ["i-0b2"]]
  /\ issued (ec2Client (snd (inputCapture Sample.describeOk Sample.startOk
                               Sample.stopFails (Sample.world 2) (runeEvent "t"))))
     = [CallStopInstances ["i-0b2"]].
Proof.
  apply (keys_target_selected_instance Sample.describeOk Sample.startOk
           Sample.stopFails (Sample.world 2) headerRow sampleRecords 1
           {| GlobalIP := ""; InstanceId := "i-0b2"; Name := "";
              Platform := "windows"; PrivateIp := ""; SecurityGroupId := "";
              State := "stopped" |});
    reflexivity.
Defined.

Lemma other_keys_passed_through_witness :
  inputCapture Sample.describeOk Sample.startOk Sample.stopFails
    (Sample.world 1) (runeEvent "x")
  = (Ok (runeEvent "x"), Sample.world 1).
Proof.
  apply (other_keys_passed_through Sample.describeOk Sample.startOk
           Sample.stopFails (Sample.world 1) (runeEvent "x")).
  right. reflexivity.
Defined.

Lemma start_stop_leave_table_witness :
  table (snd (inputCapture Sample.describeOk Sample.startOk Sample.stopFails
                (Sample.world 1) (runeEvent "t")))
  = table (Sample.world 1)
  /\ tview.status
       (app (snd (inputCapture Sample.describeOk Sample.startOk
                    Sample.stopFails (Sample.world 1) (runeEvent "t"))))
     = tview.Running
  /\ issued
       (ec2Client (snd (inputCapture Sample.describeOk Sample.startOk
                          Sample.stopFails (Sample.world 1) (runeEvent "t"))))
     = [CallStopInstances ["i-0a1"]].
Proof.
  apply (proj2 (start_stop_leave_table Sample.describeOk Sample.startOk
                  Sample.stopFails (Sample.world 1)
                  (fun H : tview.GetSelection (table (Sample.world 1)) = 0 =>
                     Nat.neq_succ_0 0 H))).
Defined.

Lemma quit_stops_everything_witness :
  tview.status
    (app (step Sample.describeOk Sample.startOk Sample.stopFails
            Sample.keepSelection (Sample.world 1) (runeEvent "q")))
  = tview.Stopped
  /\ ec2Client
       (step Sample.describeOk Sample.startOk Sample.stopFails
          Sample.keepSelection (Sample.world 1) (runeEvent "q"))
     = Sample.freshClient
  /\ tview.cells
       (table (step Sample.describeOk Sample.startOk Sample.stopFails
                 Sample.keepSelection (Sample.world 1) (runeEvent "q")))
     = tview.cells Sample.renderedTable
  /\ run Sample.describeOk Sample.startOk Sample.stopFails
       Sample.keepSelection [runeEvent "s"; runeEvent "r"]
       (step Sample.describeOk Sample.startOk Sample.stopFails
          Sample.keepSelection (Sample.world 1) (runeEvent "q"))
     = step Sample.describeOk Sample.startOk Sample.stopFails
         Sample.keepSelection (Sample.world 1) (runeEvent "q").
Proof.
  apply (quit_stops_everything Sample.describeOk Sample.startOk
           Sample.stopFails Sample.keepSelection (Sample.world 1)
           [runeEvent "s"; runeEvent "r"]).
  - reflexivity.
  - discriminate.
Defined.

Lemma header_row_preserved_witness :
  exists old',
    tview.cells
      (table (run Sample.describeFails Sample.startOk Sample.stopFails
                Sample.keepSelection
                [runeEvent "r"; keyEvent tcell.KeyEnter; runeEvent "s"]
                (Sample.world 1)))
    = headerRow :: old'.
Proof.
  apply (header_row_preserved Sample.describeFails Sample.startOk
           Sample.stopFails Sample.keepSelection
           [runeEvent "r"; keyEvent tcell.KeyEnter; runeEvent "s"]
           (Sample.world 1) headerRow (map renderRow sampleRecords)).
  reflexivity.
Defined.

(** ** Start-up *)

(** X16.  Start-up aborts before any table is shown when the host cannot
    resolve the configuration, with the host's error wrapped twice, and
    when the first listing fails, with the provider's error as it is; a
    first listing that panics aborts it as well. *)
Theorem main_fatal_cases {Config Service : Type}
    (resolve : config.LoadOptions -> Config + error)
    (NewFromConfig : Config -> Service)
    (Describe : Service -> (ec2.DescribeInstancesOutput + error) * Service)
    (profile : string) :
  (forall e,
     resolve {| config.SharedConfigProfile := profile;
                config.Region := "ap-northeast-1" |} = inr e ->
     main resolve NewFromConfig Describe profile
     = Err ("Failed to create EC2 client: "
            ++ "unable to load SDK config: " ++ e))
  /\ (forall cfg e svc,
        resolve {| config.SharedConfigProfile := profile;
                   config.Region := "ap-northeast-1" |} = inl cfg ->
        Describe (NewFromConfig cfg) = (inr e, svc) ->
        main resolve NewFromConfig Describe profile = Err e)
  /\ (forall cfg result svc,
        resolve {| config.SharedConfigProfile := profile;
                   config.Region := "ap-northeast-1" |} = inl cfg ->
        Describe (NewFromConfig cfg) = (inl result, svc) ->
        mapResponse result = Panic ->
        main resolve NewFromConfig Describe profile = Panic).
Proof.
  unfold main, NewEC2Client, config.LoadDefaultConfig.
  change (config.applyOptFns (NewEC2Client_optFns profile))
    with {| config.SharedConfigProfile := profile;
            config.Region := "ap-northeast-1" |}.
  repeat split.
  - intros e ->. reflexivity.
  - intros cfg e svc -> Hcall.
    unfold refreshTable, getInstances. cbn [client]. now rewrite Hcall.
  - intros cfg result svc -> Hcall Hpanic.
    unfold refreshTable, getInstances. cbn [client].
    now rewrite Hcall, Hpanic.
Qed.

Lemma main_fatal_cases_witness :
  main Sample.resolveOk Sample.newService Sample.describeFails "default"
  = Err "RequestExpired".
Proof.
  apply (proj1 (proj2 (main_fatal_cases Sample.resolveOk Sample.newService
                         Sample.describeFails "default"))
           {| config.SharedConfigProfile := "default";
              config.Region := "ap-northeast-1" |} "RequestExpired" 1);
    reflexivity.
Defined.


